(** * The allele-specific training driver of mhcflurry

    A shallow embedding of
    [script/mhcflurry-train-class1-allele-specific-models.py]: the
    [--imputation-method] option of its argument parser, the choice of the
    imputed-dataset mapping, and the per-allele training loop with its
    effects on the output directory.

    The output directory is a finite map from the paths of its regular
    files to their contents; the calls the script makes on its
    collaborators (model construction, fitting, persistence, console
    output, file removal) are recorded in a trace.  Strings are byte strings
    and the character classes are those of Python on ASCII text; paths are
    joined as [posixpath.join] does; [assert] statements are active (the
    interpreter runs without [-O]). *)

From stdpp Require Import base option list gmap strings sorting.
From Stdlib Require Import ZArith Ascii String Lia.

Local Open Scope string_scope.
Local Open Scope Z_scope.

(** ** Python string operations used by the script *)

Module PyStr.

Definition code (c : ascii) : N := N_of_ascii c.

(** [c.isdigit()] on an ASCII character. *)
Definition digit_char (c : ascii) : bool :=
  ((48 <=? code c) && (code c <=? 57))%N.

Fixpoint all_digits (s : string) : bool :=
  match s with
  | EmptyString => true
  | String c s' => digit_char c && all_digits s'
  end.

(** [s.isdigit()]: at least one character, and every character a digit. *)
Definition isdigit (s : string) : bool :=
  match s with
  | EmptyString => false
  | String _ _ => all_digits s
  end.

(** [c.isspace()] on an ASCII character: tab, line feed, vertical tab,
    form feed, carriage return, the four separators 28..31, and space. *)
Definition isspace (c : ascii) : bool :=
  (((9 <=? code c) && (code c <=? 13))
   || ((28 <=? code c) && (code c <=? 31))
   || (code c =? 32))%N.

Fixpoint all_space (s : string) : bool :=
  match s with
  | EmptyString => true
  | String c s' => isspace c && all_space s'
  end.

Fixpoint lstrip (s : string) : string :=
  match s with
  | EmptyString => EmptyString
  | String c s' => if isspace c then lstrip s' else s
  end.

Fixpoint rstrip (s : string) : string :=
  match s with
  | EmptyString => EmptyString
  | String c s' =>
      match rstrip s' with
      | EmptyString => if isspace c then EmptyString else String c EmptyString
      | r => String c r
      end
  end.

(** [s.strip()] *)
Definition strip (s : string) : string := rstrip (lstrip s).

Definition lower_char (c : ascii) : ascii :=
  if ((65 <=? code c) && (code c <=? 90))%N
  then ascii_of_N (code c + 32)
  else c.

(** [s.lower()] *)
Fixpoint lower (s : string) : string :=
  match s with
  | EmptyString => EmptyString
  | String c s' => String (lower_char c) (lower s')
  end.

Definition startswith_sep (s : string) : bool :=
  match s with
  | String "/" _ => true
  | _ => false
  end.

Fixpoint endswith_sep (s : string) : bool :=
  match s with
  | EmptyString => false
  | String c EmptyString => Ascii.eqb c "/"
  | String _ s' => endswith_sep s'
  end.

(** [os.path.join(a, b)] on a POSIX system. *)
Definition join (a b : string) : string :=
  if startswith_sep b then b
  else if (String.eqb a EmptyString || endswith_sep a)%bool then a ++ b
  else a ++ "/" ++ b.

Fixpoint last_char (s : string) : option ascii :=
  match s with
  | EmptyString => None
  | String c EmptyString => Some c
  | String _ s' => last_char s'
  end.

End PyStr.

(** ** The [--imputation-method] option *)

Module Cli.

(** [choices=("mice", "knn", "softimpute", "svd", "mean")] *)
Definition choices : list string :=
  ["mice"; "knn"; "softimpute"; "svd"; "mean"].

(** [type=lambda s: s.strip().lower()] *)
Definition imputation_type (s : string) : string :=
  PyStr.lower (PyStr.strip s).

Inductive parsed (A : Type) : Type :=
| Parsed (a : A)
| UsageError.
Arguments Parsed {A} a.
Arguments UsageError {A}.

Definition in_choices (v : string) : bool :=
  existsb (String.eqb v) choices.

(** What argparse does with the option: absent, the default [None]; given,
    the converted value when it is one of the choices, a usage error
    otherwise. *)
Definition parse_imputation_method (given : option string)
  : parsed (option string) :=
  match given with
  | None => Parsed None
  | Some s =>
      let v := imputation_type s in
      if in_choices v then Parsed (Some v) else UsageError
  end.

End Cli.

(** ** Data model *)

(** The per-allele bundle returned by [load_allele_datasets], and with the
    same shape by [create_imputed_datasets].  [F] is the type of the
    measured values and of the sample weights; [X_index] has one row of
    peptide encodings per sample. *)
Record AlleleData (F : Type) : Type := mkAlleleData {
  X_index : list (list Z);
  Y : list F;
  weights : list F;
  original_peptides : list string
}.
Arguments mkAlleleData {F} _ _ _ _.
Arguments X_index {F} _.
Arguments Y {F} _.
Arguments weights {F} _.
Arguments original_peptides {F} _.

(** The keyword arguments of [Class1BindingPredictor.from_hyperparameters]. *)
Record Hyperparameters (F : Type) : Type := mkHyperparameters {
  hp_name : string;
  hp_peptide_length : Z;
  hp_max_ic50 : F;
  hp_embedding_output_dim : Z;
  hp_layer_sizes : list Z;
  hp_activation : string;
  hp_init : string;
  hp_dropout_probability : F;
  hp_learning_rate : F
}.
Arguments mkHyperparameters {F} _ _ _ _ _ _ _ _ _.

(** The keyword arguments of [model.fit]. *)
Record FitArgs (F : Type) : Type := mkFitArgs {
  fit_X : list (list Z);
  fit_Y : list F;
  fit_sample_weights : list F;
  fit_X_pretrain : option (list (list Z));
  fit_Y_pretrain : option (list F);
  fit_sample_weights_pretrain : option (list F);
  fit_n_training_epochs : Z;
  fit_verbose : bool
}.
Arguments mkFitArgs {F} _ _ _ _ _ _ _ _.
Arguments fit_X {F} _.
Arguments fit_Y {F} _.
Arguments fit_sample_weights {F} _.
Arguments fit_X_pretrain {F} _.
Arguments fit_Y_pretrain {F} _.
Arguments fit_sample_weights_pretrain {F} _.
Arguments fit_n_training_epochs {F} _.
Arguments fit_verbose {F} _.

(** The namespace returned by [parser.parse_args()].  [alleles] holds the
    names after argparse has applied [type=normalize_allele_name] to each;
    the last eight fields are the options added by
    [add_hyperparameter_arguments_to_parser]. *)
Record Args (F : Type) : Type := mkArgs {
  binding_data_csv : string;
  output_dir : string;
  overwrite : bool;
  min_samples_per_allele : Z;
  alleles : list string;
  imputation_method : option string;
  max_ic50 : F;
  embedding_size : Z;
  hidden_layer_size : Z;
  activation : string;
  initialization : string;
  dropout : F;
  learning_rate : F;
  training_epochs : Z
}.
Arguments mkArgs {F} _ _ _ _ _ _ _ _ _ _ _ _ _ _.
Arguments binding_data_csv {F} _.
Arguments output_dir {F} _.
Arguments overwrite {F} _.
Arguments min_samples_per_allele {F} _.
Arguments alleles {F} _.
Arguments imputation_method {F} _.
Arguments max_ic50 {F} _.
Arguments embedding_size {F} _.
Arguments hidden_layer_size {F} _.
Arguments activation {F} _.
Arguments initialization {F} _.
Arguments dropout {F} _.
Arguments learning_rate {F} _.
Arguments training_epochs {F} _.

(** ** Collaborators

    The functions the script imports from the [mhcflurry] package.  Their
    code is not part of the script; the script is verified for every choice
    of them. *)
Class Collaborators : Type := {
  float : Type;
  Model : Type;
  Imputer : Type;
  (** [mhcflurry.common.normalize_allele_name] *)
  normalize_allele_name : string -> string;
  (** [Class1BindingPredictor.from_hyperparameters] *)
  from_hyperparameters : Hyperparameters float -> Model;
  (** [Class1BindingPredictor.fit]: the model after fitting. *)
  fit : Model -> FitArgs float -> Model;
  (** The two blobs [to_disk] persists for a model: its structural
      description and its weights. *)
  model_json : Model -> string;
  model_weights : Model -> string;
  (** [mhcflurry.imputation.imputer_from_name] *)
  imputer_from_name : string -> option Imputer;
  (** [mhcflurry.imputation.create_imputed_datasets] *)
  create_imputed_datasets :
    gmap string (AlleleData float) -> string -> gmap string (AlleleData float)
}.

(** ** Effects: the output directory, exceptions and the trace *)

(** An uncaught Python exception ends the run. *)
Inductive exn : Type :=
| KeyError (key : string)
| AssertionError.

Inductive outcome (A : Type) : Type :=
| Ok (a : A)
| Raise (e : exn).
Arguments Ok {A} a.
Arguments Raise {A} e.

(** The lines the loop prints. *)
Inductive log_line : Type :=
| SkippingAllele (allele_name : string)
| TrainingPredictor (allele_name : string) (n_allele : nat) (n_unique : nat)
| AlreadyExists
| TooFewDataPoints
| RemovingOldModelDescription (json_path : string)
| RemovingOldWeightsFile (hdf_path : string).

Section Driver.

Context `{C : Collaborators}.

(** What the loop does to the outside world, in the order it does it. *)
Inductive event : Type :=
| Print (l : log_line)
| Constructed (h : Hyperparameters float)
| Removed (path : string)
| Fitted (m : Model) (a : FitArgs float)
| Written (path : string) (content : string).

(** A computation reads and updates the files of the output directory,
    returns a value or raises, and emits the events it performed. *)
Definition M (A : Type) : Type :=
  gmap string string -> outcome A * gmap string string * list event.

Definition ret {A} (a : A) : M A := fun fs => (Ok a, fs, []).

Definition bind {A B} (m : M A) (k : A -> M B) : M B :=
  fun fs =>
    match m fs with
    | (Ok a, fs1, t1) =>
        match k a fs1 with
        | (r, fs2, t2) => (r, fs2, (t1 ++ t2)%list)
        end
    | (Raise e, fs1, t1) => (Raise e, fs1, t1)
    end.

Definition raise {A} (e : exn) : M A := fun fs => (Raise e, fs, []).

Definition emit (e : event) : M unit := fun fs => (Ok tt, fs, [e]).

Notation "x <- m ;; k" := (bind m (fun x => k))
  (at level 100, m at next level, right associativity).
Notation "m ;;; k" := (bind m (fun _ => k))
  (at level 100, right associativity).

(** [print(...)] *)
Definition print (l : log_line) : M unit := emit (Print l).

(** [os.path.exists(path)] *)
Definition exists_ (path : string) : M bool :=
  fun fs => (Ok (bool_decide (is_Some (fs !! path))), fs, []).

(** [os.remove(path)], called on existing files only. *)
Definition remove (path : string) : M unit :=
  fun fs => (Ok tt, delete path fs, [Removed path]).

Definition write_file (path content : string) : M unit :=
  fun fs => (Ok tt, <[path := content]> fs, [Written path content]).

(** [d[key]] *)
Definition getitem {V} (d : gmap string V) (key : string) : M V :=
  match d !! key with
  | Some v => ret v
  | None => raise (KeyError key)
  end.

(** [assert b] *)
Definition assert (b : bool) : M unit :=
  if b then ret tt else raise AssertionError.

(** [for x in l: body(x)] *)
Fixpoint for_each {A} (body : A -> M unit) (l : list A) : M unit :=
  match l with
  | [] => ret tt
  | x :: l' => body x ;;; for_each body l'
  end.

(** Modelled from the spec: [Class1BindingPredictor.to_disk], whose code is
    not in the script.  It persists the model's architecture and weights to
    the two target paths, honoring the overwrite flag: a file already at a
    target path is replaced when [overwrite] is set and left as it is
    otherwise. *)
Definition save (path content : string) (overwrite : bool) : M unit :=
  present <- exists_ path ;;
  if present then
    if overwrite then remove path ;;; write_file path content
    else ret tt
  else write_file path content.

(** Modelled from the spec: [to_disk] saves the architecture at the first
    target path and the weights at the second. *)
Definition to_disk (model : Model) (model_json_path weights_hdf_path : string)
    (overwrite : bool) : M unit :=
  save model_json_path (model_json model) overwrite ;;;
  save weights_hdf_path (model_weights model) overwrite.

(** ** The script *)

(** Lines 128-138: the imputed-dataset mapping. *)
Definition imputed_data_dict_of (args : Args float)
    (allele_data_dict : gmap string (AlleleData float))
  : gmap string (AlleleData float) :=
  let imputer :=
    match imputation_method args with
    | None => None
    | Some name => imputer_from_name name
    end in
  match imputer with
  | None => ∅
  | Some _ =>
      match imputation_method args with
      | Some name => create_imputed_datasets allele_data_dict name
      | None => ∅
      end
  end.

(** [sorted(d.keys())] *)
Definition sorted_keys {V} (d : gmap string V) : list string :=
  merge_sort (fun a b => Is_true (String.leb a b)) (map fst (map_to_list d)).

(** Lines 141-144: the alleles to train. *)
Definition alleles_of (args : Args float)
    (allele_data_dict : gmap string (AlleleData float)) : list string :=
  match alleles args with
  | [] => sorted_keys allele_data_dict
  | _ :: _ => alleles args
  end.

(** [len(set(original_peptides))] *)
Definition n_unique (peptides : list string) : nat :=
  List.length (remove_dups peptides).

(** Lines 147-223: one iteration of the loop.  [continue] ends the
    iteration with [ret tt]. *)
Definition loop_body (args : Args float)
    (allele_data_dict imputed_data_dict : gmap string (AlleleData float))
    (allele_name : string) : M unit :=
  allele_data <- getitem allele_data_dict allele_name ;;
  let X := X_index allele_data in
  let weights_ := weights allele_data in
  let n_allele := List.length (Y allele_data) in
  assert (List.length X =? n_allele)%nat ;;;
  assert (List.length weights_ =? n_allele)%nat ;;;
  let '(X_pretrain, Y_pretrain, weights_pretrain) :=
    match imputed_data_dict !! allele_name with
    | Some imputed_data =>
        (Some (X_index imputed_data), Some (Y imputed_data),
         Some (weights imputed_data))
    | None => (None, None, None)
    end in
  let allele_name := normalize_allele_name allele_name in
  if PyStr.isdigit allele_name then
    print (SkippingAllele allele_name)
  else
    print (TrainingPredictor allele_name n_allele
             (n_unique (original_peptides allele_data))) ;;;
    let hyperparameters :=
      mkHyperparameters allele_name 9 (max_ic50 args) (embedding_size args)
        [hidden_layer_size args] (activation args) (initialization args)
        (dropout args) (learning_rate args) in
    emit (Constructed hyperparameters) ;;;
    let model := from_hyperparameters hyperparameters in
    let json_filename := allele_name ++ ".json" in
    let json_path := PyStr.join (output_dir args) json_filename in
    let hdf_filename := allele_name ++ ".hdf" in
    let hdf_path := PyStr.join (output_dir args) hdf_filename in
    json_exists <- exists_ json_path ;;
    hdf_exists <- exists_ hdf_path ;;
    if json_exists && hdf_exists && negb (overwrite args) then
      print AlreadyExists
    else if Z.of_nat n_allele <? min_samples_per_allele args then
      print TooFewDataPoints
    else
      (json_exists <- exists_ json_path ;;
       if json_exists then
         print (RemovingOldModelDescription json_path) ;;;
         remove json_path
       else ret tt) ;;;
      (hdf_exists <- exists_ hdf_path ;;
       if hdf_exists then
         print (RemovingOldWeightsFile hdf_path) ;;;
         remove hdf_path
       else ret tt) ;;;
      let fit_args :=
        mkFitArgs (X_index allele_data) (Y allele_data) weights_
          X_pretrain Y_pretrain weights_pretrain
          (training_epochs args) true in
      emit (Fitted model fit_args) ;;;
      let model := fit model fit_args in
      to_disk model json_path hdf_path (overwrite args).

(** Line 146: the loop. *)
Definition training_loop (args : Args float)
    (allele_data_dict imputed_data_dict : gmap string (AlleleData float))
    (alleles : list string) : M unit :=
  for_each (loop_body args allele_data_dict imputed_data_dict) alleles.

(** Lines 128-223: the script from the loaded datasets on. *)
Definition train (args : Args float)
    (allele_data_dict : gmap string (AlleleData float)) : M unit :=
  training_loop args allele_data_dict
    (imputed_data_dict_of args allele_data_dict)
    (alleles_of args allele_data_dict).

End Driver.

(** ** A concrete set of collaborators

    Used to run the script on explicit inputs. *)

Module Demo.

Definition is_punct (c : ascii) : bool :=
  (Ascii.eqb c "*" || Ascii.eqb c ":" || Ascii.eqb c "-")%bool.

(** Drops the separators [*], [:] and [-] of an allele name. *)
Fixpoint drop_punct (s : string) : string :=
  match s with
  | EmptyString => EmptyString
  | String c s' => if is_punct c then drop_punct s' else String c (drop_punct s')
  end.

Definition collaborators : Collaborators := {|
  float := Z;
  Model := string;
  Imputer := unit;
  normalize_allele_name := drop_punct;
  from_hyperparameters := fun h => hp_name Z h;
  fit := fun m _ => m ++ "+fit";
  model_json := fun m => "json:" ++ m;
  model_weights := fun m => "hdf:" ++ m;
  imputer_from_name := fun _ => Some tt;
  create_imputed_datasets := fun d _ => d
|}.

Definition args (overwrite : bool) (min_samples : Z) (alleles : list string)
  : Args Z :=
  mkArgs "data.csv" "models" overwrite min_samples alleles None
    50000 64 400 "relu" "lecun_uniform" 0 1 100.

(** An allele with [n] samples. *)
Definition samples (n : nat) : AlleleData Z :=
  mkAlleleData (replicate n [1; 2; 3; 4; 5; 6; 7; 8; 9])
    (replicate n 7) (replicate n 1) (replicate n "SIINFEKLL").

(** Mismatched lengths: two rows of encodings, three measurements. *)
Definition ragged : AlleleData Z :=
  mkAlleleData [[1]; [2]] [7; 7; 7] [1; 1; 1] ["A"; "B"; "C"].

Definition dataset : gmap string (AlleleData Z) :=
  <["A*02:01" := samples 10]>
  (<["B*07:02" := samples 3]>
  (<["123" := samples 10]>
  (<["C*01:02" := ragged]> ∅))).

(** Output directories: the two files of an allele, or its JSON file
    only, left by an earlier run. *)
Definition both_files (name : string) : gmap string string :=
  <["models/" ++ name ++ ".json" := "old"]>
    (<["models/" ++ name ++ ".hdf" := "old"]> ∅).

Definition json_only (name : string) : gmap string string :=
  <["models/" ++ name ++ ".json" := "old"]> ∅.

End Demo.

(** ** Vocabulary of the statements *)

(** Some character of the text is whitespace. *)
Fixpoint has_space (s : string) : bool :=
  match s with
  | EmptyString => false
  | String c s' => PyStr.isspace c || has_space s'
  end.

Section Vocabulary.

Context `{C : Collaborators}.

(** The length invariant of the data model. *)
Definition well_formed (d : AlleleData float) : Prop :=
  List.length (X_index d) = List.length (Y d)
  /\ List.length (weights d) = List.length (Y d).

(** The raw sample count of an allele, as the loop computes it. *)
Definition sample_count (d : AlleleData float) : Z :=
  Z.of_nat (List.length (Y d)).

Definition json_path_of (args : Args float) (allele_name : string) : string :=
  PyStr.join (output_dir args) (normalize_allele_name allele_name ++ ".json").

Definition hdf_path_of (args : Args float) (allele_name : string) : string :=
  PyStr.join (output_dir args) (normalize_allele_name allele_name ++ ".hdf").

Definition file_exists (fs : gmap string string) (path : string) : Prop :=
  is_Some (fs !! path).

(** Both artifact files of the allele are in the output directory. *)
Definition materialized (args : Args float) (fs : gmap string string)
    (allele_name : string) : Prop :=
  file_exists fs (json_path_of args allele_name)
  /\ file_exists fs (hdf_path_of args allele_name).

Definition hyperparameters_of (args : Args float) (allele_name : string)
  : Hyperparameters float :=
  mkHyperparameters (normalize_allele_name allele_name) 9 (max_ic50 args)
    (embedding_size args) [hidden_layer_size args] (activation args)
    (initialization args) (dropout args) (learning_rate args).

(** The arguments [fit] receives for an allele. *)
Definition fit_args_of (args : Args float)
    (imputed_data_dict : gmap string (AlleleData float))
    (allele_name : string) (d : AlleleData float) : FitArgs float :=
  mkFitArgs (X_index d) (Y d) (weights d)
    (X_index <$> imputed_data_dict !! allele_name)
    (Y <$> imputed_data_dict !! allele_name)
    (weights <$> imputed_data_dict !! allele_name)
    (training_epochs args) true.

(** The model the loop persists for an allele. *)
Definition fitted_model (args : Args float)
    (imputed_data_dict : gmap string (AlleleData float))
    (allele_name : string) (d : AlleleData float) : Model :=
  fit (from_hyperparameters (hyperparameters_of args allele_name))
    (fit_args_of args imputed_data_dict allele_name d).

(** What every iteration that gets past the numeric-name guard does
    first: the announcement of line 172 and the construction of line 177. *)
Definition preamble (args : Args float) (allele_name : string)
    (d : AlleleData float) : list event :=
  [Print (TrainingPredictor (normalize_allele_name allele_name)
            (List.length (Y d)) (n_unique (original_peptides d)));
   Constructed (hyperparameters_of args allele_name)].

(** The messages and removals of lines 202-208 for the files present. *)
Definition removals (args : Args float) (fs : gmap string string)
    (allele_name : string) : list event :=
  ((if bool_decide (file_exists fs (json_path_of args allele_name))
    then [Print (RemovingOldModelDescription (json_path_of args allele_name));
          Removed (json_path_of args allele_name)]
    else [])
   ++
   (if bool_decide (file_exists fs (hdf_path_of args allele_name))
    then [Print (RemovingOldWeightsFile (hdf_path_of args allele_name));
          Removed (hdf_path_of args allele_name)]
    else []))%list.

Definition is_fit (e : event) : bool :=
  match e with Fitted _ _ => true | _ => false end.

Definition is_construction (e : event) : bool :=
  match e with Constructed _ => true | _ => false end.

(** The events that change the output directory. *)
Definition touches_files (e : event) : bool :=
  match e with Removed _ | Written _ _ => true | _ => false end.

(** A trace without any event of the given kind. *)
Definition none_of (kind : event -> bool) (t : list event) : Prop :=
  forallb (fun e => negb (kind e)) t = true.

(** The paths written by a trace, in order. *)
Fixpoint written_paths (t : list event) : list string :=
  match t with
  | [] => []
  | Written path _ :: t' => path :: written_paths t'
  | _ :: t' => written_paths t'
  end.

(** The fit, followed by the two writes of [to_disk], for an allele. *)
Definition fit_and_persist (args : Args float)
    (imputed_data_dict : gmap string (AlleleData float))
    (allele_name : string) (d : AlleleData float) : list event :=
  let m := fitted_model args imputed_data_dict allele_name d in
  [Fitted (from_hyperparameters (hyperparameters_of args allele_name))
     (fit_args_of args imputed_data_dict allele_name d);
   Written (json_path_of args allele_name) (model_json m);
   Written (hdf_path_of args allele_name) (model_weights m)].

(** The six ways one iteration can go, with its result, the output
    directory after it and its trace.  [loop_body_cases] shows that the
    loop body always takes one of them. *)
Inductive iteration_case (args : Args float)
    (dict imputed : gmap string (AlleleData float))
    (allele_name : string) (fs : gmap string string)
  : outcome unit * gmap string string * list event -> Prop :=
| case_missing :
    dict !! allele_name = None ->
    iteration_case args dict imputed allele_name fs
      (Raise (KeyError allele_name), fs, [])
| case_ragged d :
    dict !! allele_name = Some d -> ~ well_formed d ->
    iteration_case args dict imputed allele_name fs
      (Raise AssertionError, fs, [])
| case_numeric d :
    dict !! allele_name = Some d -> well_formed d ->
    PyStr.isdigit (normalize_allele_name allele_name) = true ->
    iteration_case args dict imputed allele_name fs
      (Ok tt, fs, [Print (SkippingAllele (normalize_allele_name allele_name))])
| case_existing d :
    dict !! allele_name = Some d -> well_formed d ->
    PyStr.isdigit (normalize_allele_name allele_name) = false ->
    materialized args fs allele_name -> overwrite args = false ->
    iteration_case args dict imputed allele_name fs
      (Ok tt, fs, (preamble args allele_name d ++ [Print AlreadyExists])%list)
| case_too_few d :
    dict !! allele_name = Some d -> well_formed d ->
    PyStr.isdigit (normalize_allele_name allele_name) = false ->
    ~ (materialized args fs allele_name /\ overwrite args = false) ->
    sample_count d < min_samples_per_allele args ->
    iteration_case args dict imputed allele_name fs
      (Ok tt, fs,
       (preamble args allele_name d ++ [Print TooFewDataPoints])%list)
| case_trained d :
    dict !! allele_name = Some d -> well_formed d ->
    PyStr.isdigit (normalize_allele_name allele_name) = false ->
    ~ (materialized args fs allele_name /\ overwrite args = false) ->
    min_samples_per_allele args <= sample_count d ->
    iteration_case args dict imputed allele_name fs
      (Ok tt,
       <[hdf_path_of args allele_name :=
           model_weights (fitted_model args imputed allele_name d)]>
         (<[json_path_of args allele_name :=
              model_json (fitted_model args imputed allele_name d)]> fs),
       (preamble args allele_name d ++ removals args fs allele_name
        ++ fit_and_persist args imputed allele_name d)%list).

(** With [overwrite] unset, an allele the loop has nothing left to do for:
    its name is numeric, or both its files are there, or it has too few
    samples. *)
Definition settled (args : Args float) (dict : gmap string (AlleleData float))
    (fs : gmap string string) (allele_name : string) : Prop :=
  exists d, dict !! allele_name = Some d /\ well_formed d /\
    (PyStr.isdigit (normalize_allele_name allele_name) = true
     \/ materialized args fs allele_name
     \/ sample_count d < min_samples_per_allele args).

(** A trace that neither fits a model nor changes the output directory. *)
Definition quiet (t : list event) : Prop :=
  none_of is_fit t /\ none_of touches_files t.

End Vocabulary.

(** The text is empty or starts with a character that is not whitespace. *)
Definition starts_clean (s : string) : Prop :=
  match s with
  | EmptyString => True
  | String c _ => PyStr.isspace c = false
  end.

(** ** Vocabulary for whole runs *)

Section RunVocabulary.

Context `{C : Collaborators}.

(** An allele the loop trains whenever it gets to its removals: it is in
    the dataset, its normalized name is not purely numeric, and it has at
    least the minimum number of samples. *)
Definition eligible (args : Args float)
    (dict : gmap string (AlleleData float)) (allele_name : string) : bool :=
  match dict !! allele_name with
  | Some d =>
      negb (PyStr.isdigit (normalize_allele_name allele_name))
      && (min_samples_per_allele args <=? sample_count d)
  | None => false
  end.

(** The artifact paths of the eligible alleles of a list. *)
Fixpoint artifact_paths (args : Args float)
    (dict : gmap string (AlleleData float)) (alleles : list string)
  : gset string :=
  match alleles with
  | [] => ∅
  | allele_name :: rest =>
      (if eligible args dict allele_name
       then {[json_path_of args allele_name; hdf_path_of args allele_name]}
       else ∅)
      ∪ artifact_paths args dict rest
  end.

(** The calls of [fit] in a trace, in order. *)
Definition fits (t : list event) : list event := List.filter is_fit t.

(** The allele gets past the two skips of lines 194-200 in the given output
    directory. *)
Definition trains (args : Args float)
    (dict : gmap string (AlleleData float)) (fs : gmap string string)
    (allele_name : string) : bool :=
  eligible args dict allele_name
  && negb (bool_decide (is_Some (fs !! json_path_of args allele_name)
                        /\ is_Some (fs !! hdf_path_of args allele_name))
           && negb (overwrite args)).

(** The output directory after the iterations of a list of alleles. *)
Definition directory_after (args : Args float)
    (dict imputed : gmap string (AlleleData float))
    (alleles : list string) (fs : gmap string string) : gmap string string :=
  (training_loop args dict imputed alleles fs).1.2.

End RunVocabulary.

(** ** The version lookup of [setup.py]

    Lines 44-48 search the text of [mhcflurry/__init__.py], in multi-line
    mode, for a line start followed by [__version__], whitespace, [=],
    whitespace, a quote (single or double), a group of characters that are
    not quotes, and a quote; they take the group.  The whitespace class is
    that of Python 3 on ASCII text. *)

Module Setup.

Definition newline : ascii := ascii_of_nat 10.

(** The character class of the two quotes, single and double. *)
Definition is_quote (c : ascii) : bool :=
  (Ascii.eqb c "'" || Ascii.eqb c (ascii_of_nat 34))%bool.

(** The text after a literal prefix, when the text starts with it. *)
Fixpoint strip_prefix (prefix s : string) : option string :=
  match prefix with
  | EmptyString => Some s
  | String p prefix' =>
      match s with
      | EmptyString => None
      | String c s' =>
          if Ascii.eqb p c then strip_prefix prefix' s' else None
      end
  end.

(** The group and the closing quote: the longest run of characters that
    are not quotes, which a quote has to follow. *)
Fixpoint group_to_quote (s : string) : option string :=
  match s with
  | EmptyString => None
  | String c s' =>
      if is_quote c then Some EmptyString
      else match group_to_quote s' with
           | Some v => Some (String c v)
           | None => None
           end
  end.

(** The expression without its anchor, matched at the start of the text;
    the result is the first group.  Each starred class is followed by a
    character outside of it, so the longest run is the only candidate. *)
Definition match_here (s : string) : option string :=
  match strip_prefix "__version__" s with
  | None => None
  | Some s1 =>
      match PyStr.lstrip s1 with
      | String "=" s2 =>
          match PyStr.lstrip s2 with
          | String q s3 => if is_quote q then group_to_quote s3 else None
          | EmptyString => None
          end
      | _ => None
      end
  end.

(** [re.search] in multi-line mode: the leftmost position at the start of
    the text or right after a newline where the expression matches.
    [line_start] tells whether the text begins at such a position. *)
Fixpoint search (line_start : bool) (s : string) : option string :=
  match (if line_start then match_here s else None) with
  | Some v => Some v
  | None =>
      match s with
      | EmptyString => None
      | String c s' => search (Ascii.eqb c newline) s'
      end
  end.

(** The uncaught exception of [None.group(1)]. *)
Inductive setup_error : Type := AttributeError.

(** Lines 45-48: the version, from the text of [__init__.py]. *)
Definition version_of (init_py : string) : setup_error + string :=
  match search true init_py with
  | Some v => inr v
  | None => inl AttributeError
  end.

(** Some character of the text is a quote. *)
Fixpoint has_quote (s : string) : bool :=
  match s with
  | EmptyString => false
  | String c s' => is_quote c || has_quote s'
  end.

(** The text of complete lines, each ended by a newline. *)
Fixpoint unlines (lines : list string) : string :=
  match lines with
  | [] => EmptyString
  | l :: rest => l ++ String newline (unlines rest)
  end.

Fixpoint has_newline (s : string) : bool :=
  match s with
  | EmptyString => false
  | String c s' => Ascii.eqb c newline || has_newline s'
  end.

(** A single line that does not begin with [__version__]. *)
Definition other_line (l : string) : Prop :=
  has_newline l = false /\ strip_prefix "__version__" l = None.

End Setup.

(** ** A dataset with two spellings of one allele *)

Module Twins.

(** Both names normalize to [A0201]. *)
Definition dataset : gmap string (AlleleData Z) :=
  <["A*02:01" := Demo.samples 10]> (<["A-0201" := Demo.samples 6]> ∅).

End Twins.

(** ** Facts about the string operations *)

Section StringFacts.

Import PyStr.

Lemma isspace_lower_char c : isspace (lower_char c) = isspace c.
Proof. destruct c as [[] [] [] [] [] [] [] []]; reflexivity. Qed.

Lemma has_space_lower s : has_space (lower s) = has_space s.
Proof.
  induction s as [|c s IH]; simpl; [reflexivity|].
  now rewrite isspace_lower_char, IH.
Qed.

Lemma lstrip_app_space pre s : all_space pre = true -> lstrip (pre ++ s) = lstrip s.
Proof.
  induction pre as [|c pre IH]; simpl; [reflexivity|].
  intros H. apply andb_true_iff in H as [Hc Hpre].
  rewrite Hc. now apply IH.
Qed.

Lemma lstrip_no_space s : has_space s = false -> lstrip s = s.
Proof.
  destruct s as [|c s]; simpl; [reflexivity|].
  intros H. apply orb_false_iff in H as [-> _]. reflexivity.
Qed.

Lemma rstrip_all_space s : all_space s = true -> rstrip s = EmptyString.
Proof.
  induction s as [|c s IH]; simpl; [reflexivity|].
  intros H. apply andb_true_iff in H as [Hc Hs].
  now rewrite (IH Hs), Hc.
Qed.

Lemma rstrip_app_space s post :
  all_space post = true -> rstrip (s ++ post) = rstrip s.
Proof.
  intros Hpost. induction s as [|c s IH]; simpl.
  - now apply rstrip_all_space.
  - now rewrite IH.
Qed.

Lemma rstrip_no_space s : has_space s = false -> rstrip s = s.
Proof.
  induction s as [|c s IH]; simpl; [reflexivity|].
  intros H. apply orb_false_iff in H as [Hc Hs].
  rewrite (IH Hs), Hc. now destruct s.
Qed.

(** Stripping a text that is padded with whitespace gives the text. *)
Lemma strip_padded pre s post :
  all_space pre = true -> all_space post = true -> has_space s = false ->
  strip (pre ++ s ++ post) = s.
Proof.
  intros Hpre Hpost Hs. unfold strip.
  rewrite (lstrip_app_space _ _ Hpre).
  destruct s as [|c s].
  - change (EmptyString ++ post) with post.
    assert (Hl : lstrip post = EmptyString).
    { clear Hpre Hs. induction post as [|d post IH]; simpl; [reflexivity|].
      simpl in Hpost. apply andb_true_iff in Hpost as [Hd Hp].
      rewrite Hd. now apply IH. }
    now rewrite Hl.
  - simpl in Hs. apply orb_false_iff in Hs as [Hc Hs].
    change (String c s ++ post) with (String c (s ++ post)).
    simpl lstrip. rewrite Hc.
    change (String c (s ++ post)) with (String c s ++ post).
    rewrite (rstrip_app_space _ _ Hpost).
    apply rstrip_no_space. simpl. now rewrite Hc, Hs.
Qed.

Lemma in_choices_In v : Cli.in_choices v = true <-> In v Cli.choices.
Proof.
  unfold Cli.in_choices. rewrite existsb_exists. split.
  - intros (x & Hx & E). apply String.eqb_eq in E. now subst.
  - intros H. exists v. split; [exact H | apply String.eqb_refl].
Qed.

Lemma choices_no_space name : In name Cli.choices -> has_space name = false.
Proof.
  simpl. intros [<-|[<-|[<-|[<-|[<-|[]]]]]]; reflexivity.
Qed.

Lemma last_char_app s t : t <> EmptyString -> last_char (s ++ t) = last_char t.
Proof.
  intros Ht. induction s as [|c s IH]; [reflexivity|].
  change (String c s ++ t) with (String c (s ++ t)).
  assert (Hne : s ++ t <> EmptyString).
  { destruct s as [|d s]; [exact Ht|].
    change (String d s ++ t) with (String d (s ++ t)). discriminate. }
  remember (s ++ t) as u eqn:E. destruct u as [|d u]; [congruence|].
  exact IH.
Qed.

Lemma last_char_join a b : b <> EmptyString -> last_char (join a b) = last_char b.
Proof.
  intros Hb. unfold join.
  destruct (startswith_sep b); [reflexivity|].
  destruct (_ || _)%bool.
  - now apply last_char_app.
  - rewrite last_char_app; [|discriminate].
    change ("/" ++ b) with (String "/" b). simpl.
    destruct b; [congruence | reflexivity].
Qed.

Lemma last_char_suffix n c1 c2 c3 c4 rest :
  last_char (n ++ String c1 (String c2 (String c3 (String c4 rest))))
  = last_char (String c4 rest).
Proof.
  rewrite last_char_app; [|discriminate]. reflexivity.
Qed.

End StringFacts.

(** ** Facts about one iteration of the loop *)

Section LoopFacts.

Context `{C : Collaborators}.

Implicit Types (args : Args float) (fs : gmap string string).
Implicit Types (dict imputed : gmap string (AlleleData float)).
Implicit Types (d : AlleleData float) (allele_name : string).

Lemma app_nonempty (s t : string) : t <> EmptyString -> s ++ t <> EmptyString.
Proof.
  intros Ht. destruct s as [|c s]; [exact Ht|].
  change (String c s ++ t) with (String c (s ++ t)). discriminate.
Qed.

(** The two artifact paths of an allele differ: one ends in [n], the
    other in [f]. *)
Lemma json_hdf_distinct args allele_name :
  json_path_of args allele_name <> hdf_path_of args allele_name.
Proof.
  unfold json_path_of, hdf_path_of. intros E.
  apply (f_equal PyStr.last_char) in E.
  rewrite !last_char_join in E by (apply app_nonempty; discriminate).
  rewrite !last_char_app in E by discriminate.
  discriminate.
Qed.

Lemma assert_lengths d :
  well_formed d ->
  (List.length (X_index d) =? List.length (Y d))%nat = true
  /\ (List.length (weights d) =? List.length (Y d))%nat = true.
Proof. intros [H1 H2]. rewrite H1, H2. now rewrite !Nat.eqb_refl. Qed.

Lemma not_well_formed d :
  ~ well_formed d ->
  (List.length (X_index d) =? List.length (Y d))%nat = false
  \/ ((List.length (X_index d) =? List.length (Y d))%nat = true
      /\ (List.length (weights d) =? List.length (Y d))%nat = false).
Proof.
  intros H. destruct (Nat.eqb_spec (List.length (X_index d)) (List.length (Y d))) as [E1|N1];
    [right | now left].
  split; [reflexivity|]. apply Nat.eqb_neq. intros E2. apply H. now split.
Qed.

(** An allele that is not in the dataset: [KeyError]. *)
Lemma loop_body_missing args dict imputed allele_name fs :
  dict !! allele_name = None ->
  loop_body args dict imputed allele_name fs
  = (Raise (KeyError allele_name), fs, []).
Proof.
  intros H. unfold loop_body, bind, getitem. rewrite H. reflexivity.
Qed.

(** Mismatched lengths: [AssertionError]. *)
Lemma loop_body_ragged args dict imputed allele_name d fs :
  dict !! allele_name = Some d -> ~ well_formed d ->
  loop_body args dict imputed allele_name fs = (Raise AssertionError, fs, []).
Proof.
  intros H Hd. unfold loop_body, bind, getitem. rewrite H. cbn.
  destruct (not_well_formed d Hd) as [E|[E1 E2]].
  - rewrite E. reflexivity.
  - rewrite E1, E2. reflexivity.
Qed.

(** A purely numeric normalized name: skipped. *)
Lemma loop_body_numeric args dict imputed allele_name d fs :
  dict !! allele_name = Some d -> well_formed d ->
  PyStr.isdigit (normalize_allele_name allele_name) = true ->
  loop_body args dict imputed allele_name fs
  = (Ok tt, fs, [Print (SkippingAllele (normalize_allele_name allele_name))]).
Proof.
  intros H Hd Hn. unfold loop_body, bind, getitem. rewrite H. cbn.
  destruct (assert_lengths d Hd) as [-> ->]. cbn.
  destruct (imputed !! allele_name); cbn; rewrite Hn; reflexivity.
Qed.

(** *** Running a computation step by step *)

Lemma bind_unfold {A B} (m : M A) (k : A -> M B) fs :
  bind m k fs
  = match m fs with
    | (Ok a, fs1, t1) =>
        match k a fs1 with
        | (r, fs2, t2) => (r, fs2, (t1 ++ t2)%list)
        end
    | (Raise e, fs1, t1) => (Raise e, fs1, t1)
    end.
Proof. reflexivity. Qed.

Lemma assert_true_run fs : assert true fs = (Ok tt, fs, []).
Proof. reflexivity. Qed.

(** Lines 202-204 and 206-208: a file that is present is removed. *)
Lemma remove_block_run (path : string) (msg : log_line) fs :
  bind (exists_ path)
    (fun present =>
       if present then bind (print msg) (fun _ => remove path) else ret tt) fs
  = (Ok tt, delete path fs,
     if bool_decide (file_exists fs path) then [Print msg; Removed path]
     else []).
Proof.
  unfold bind, exists_, file_exists.
  destruct (fs !! path) as [c|] eqn:E.
  - rewrite bool_decide_eq_true_2 by eauto. reflexivity.
  - rewrite bool_decide_eq_false_2 by (intros [? ?]; discriminate).
    cbn. now rewrite delete_id.
Qed.

Lemma save_fresh (path content : string) (ow : bool) fs :
  fs !! path = None ->
  save path content ow fs
  = (Ok tt, <[path := content]> fs, [Written path content]).
Proof.
  intros E. unfold save, bind, exists_.
  rewrite E, bool_decide_eq_false_2 by (intros [? ?]; discriminate).
  reflexivity.
Qed.

(** [to_disk] on two distinct paths that hold no file writes both. *)
Lemma to_disk_fresh (m : Model) (j h : string) (ow : bool) fs :
  j <> h -> fs !! j = None -> fs !! h = None ->
  to_disk m j h ow fs
  = (Ok tt, <[h := model_weights m]> (<[j := model_json m]> fs),
     [Written j (model_json m); Written h (model_weights m)]).
Proof.
  intros Hjh Ej Eh. unfold to_disk. rewrite bind_unfold.
  rewrite (save_fresh _ _ _ _ Ej).
  rewrite save_fresh by (rewrite lookup_insert_ne; done).
  reflexivity.
Qed.

Lemma guard_existing args fs allele_name :
  materialized args fs allele_name -> overwrite args = false ->
  bool_decide (is_Some (fs !! json_path_of args allele_name))
  && bool_decide (is_Some (fs !! hdf_path_of args allele_name))
  && negb (overwrite args) = true.
Proof.
  intros [Hj Hh] ->. now rewrite !bool_decide_eq_true_2.
Qed.

Lemma guard_not_existing args fs allele_name :
  ~ (materialized args fs allele_name /\ overwrite args = false) ->
  bool_decide (is_Some (fs !! json_path_of args allele_name))
  && bool_decide (is_Some (fs !! hdf_path_of args allele_name))
  && negb (overwrite args) = false.
Proof.
  intros Hm. apply not_true_is_false. intros E.
  apply andb_true_iff in E as [E Eo]. apply andb_true_iff in E as [Ej Eh].
  apply bool_decide_eq_true_1 in Ej, Eh.
  apply Hm. split; [now split|]. now destruct (overwrite args).
Qed.

Lemma print_run (l : log_line) fs : print l fs = (Ok tt, fs, [Print l]).
Proof. reflexivity. Qed.

Lemma emit_run (e : event) fs : emit e fs = (Ok tt, fs, [e]).
Proof. reflexivity. Qed.

Lemma exists_run (path : string) fs :
  exists_ path fs = (Ok (bool_decide (is_Some (fs !! path))), fs, []).
Proof. reflexivity. Qed.

Ltac run_step :=
  rewrite bind_unfold;
  first [ rewrite print_run | rewrite emit_run | rewrite exists_run
        | rewrite assert_true_run ];
  cbv beta iota zeta.

(** The part of an iteration shared by every allele that is in the
    dataset, well formed and not numeric: up to the two guards. *)
Ltac run_to_guards H Hd Hn :=
  unfold loop_body;
  rewrite bind_unfold; unfold getitem; rewrite H;
  cbv beta iota zeta delta [ret];
  let E1 := fresh "E" in
  let E2 := fresh "E" in
  destruct (assert_lengths _ Hd) as [E1 E2];
  rewrite bind_unfold, E1, assert_true_run; cbv beta iota zeta;
  rewrite bind_unfold, E2, assert_true_run; cbv beta iota zeta;
  destruct (_ !! _) in |- *; cbv beta iota zeta;
  rewrite Hn;
  do 4 run_step.

(** Both files present and no overwrite: skipped. *)
Lemma loop_body_existing args dict imputed allele_name d fs :
  dict !! allele_name = Some d -> well_formed d ->
  PyStr.isdigit (normalize_allele_name allele_name) = false ->
  materialized args fs allele_name -> overwrite args = false ->
  loop_body args dict imputed allele_name fs
  = (Ok tt, fs, (preamble args allele_name d ++ [Print AlreadyExists])%list).
Proof.
  intros H Hd Hn Hm Ho.
  run_to_guards H Hd Hn.
  all: fold (json_path_of args allele_name) (hdf_path_of args allele_name).
  all: rewrite (guard_existing _ _ _ Hm Ho), print_run; reflexivity.
Qed.

(** Fewer samples than the threshold: skipped. *)
Lemma loop_body_too_few args dict imputed allele_name d fs :
  dict !! allele_name = Some d -> well_formed d ->
  PyStr.isdigit (normalize_allele_name allele_name) = false ->
  ~ (materialized args fs allele_name /\ overwrite args = false) ->
  sample_count d < min_samples_per_allele args ->
  loop_body args dict imputed allele_name fs
  = (Ok tt, fs, (preamble args allele_name d ++ [Print TooFewDataPoints])%list).
Proof.
  intros H Hd Hn Hm Hc.
  apply Z.ltb_lt in Hc. unfold sample_count in Hc.
  run_to_guards H Hd Hn.
  all: fold (json_path_of args allele_name) (hdf_path_of args allele_name).
  all: rewrite (guard_not_existing _ _ _ Hm), Hc, print_run; reflexivity.
Qed.

Lemma insert_over_delete (j h cj ch : string) fs :
  <[h := ch]> (<[j := cj]> (delete h (delete j fs)))
  = <[h := ch]> (<[j := cj]> fs).
Proof.
  apply map_eq. intros k.
  destruct (decide (k = h)) as [->|Hh]; [by rewrite !lookup_insert_eq|].
  rewrite !(lookup_insert_ne _ h) by done.
  destruct (decide (k = j)) as [->|Hj]; [by rewrite !lookup_insert_eq|].
  rewrite !(lookup_insert_ne _ j) by done.
  by rewrite !lookup_delete_ne.
Qed.

(** Enough samples and not skipped: the files present are removed, the
    model is fitted and both files are written. *)
Lemma loop_body_trained args dict imputed allele_name d fs :
  dict !! allele_name = Some d -> well_formed d ->
  PyStr.isdigit (normalize_allele_name allele_name) = false ->
  ~ (materialized args fs allele_name /\ overwrite args = false) ->
  min_samples_per_allele args <= sample_count d ->
  let m := fitted_model args imputed allele_name d in
  loop_body args dict imputed allele_name fs
  = (Ok tt,
     <[hdf_path_of args allele_name := model_weights m]>
       (<[json_path_of args allele_name := model_json m]> fs),
     (preamble args allele_name d ++ removals args fs allele_name
      ++ [Fitted (from_hyperparameters (hyperparameters_of args allele_name))
            (fit_args_of args imputed allele_name d);
          Written (json_path_of args allele_name) (model_json m);
          Written (hdf_path_of args allele_name) (model_weights m)])%list).
Proof.
  intros H Hd Hn Hm Hc m. subst m.
  apply Z.ltb_ge in Hc. unfold sample_count in Hc.
  pose proof (json_hdf_distinct args allele_name) as Hjh.
  assert (Hhj : hdf_path_of args allele_name <> json_path_of args allele_name)
    by (intros Eq; apply Hjh; now symmetry).
  unfold fitted_model, fit_args_of.
  run_to_guards H Hd Hn.
  all: fold (json_path_of args allele_name) (hdf_path_of args allele_name).
  all: rewrite (guard_not_existing _ _ _ Hm), Hc.
  all: rewrite bind_unfold, remove_block_run; cbv beta iota zeta.
  all: rewrite bind_unfold, remove_block_run; cbv beta iota zeta.
  all: rewrite bind_unfold, emit_run; cbv beta iota zeta.
  all: rewrite to_disk_fresh;
    [ | exact Hjh
      | rewrite lookup_delete_ne by exact Hhj; apply lookup_delete_eq
      | apply lookup_delete_eq ].
  all: rewrite insert_over_delete.
  all: unfold preamble, removals, file_exists, hyperparameters_of.
  all: rewrite (lookup_delete_ne fs) by exact Hjh.
  all: cbn [app]; rewrite <- app_assoc; reflexivity.
Qed.

(** Every iteration is one of the six cases. *)
Lemma loop_body_cases args dict imputed allele_name fs :
  iteration_case args dict imputed allele_name fs
    (loop_body args dict imputed allele_name fs).
Proof.
  destruct (dict !! allele_name) as [d|] eqn:H.
  2: { rewrite loop_body_missing by exact H. now constructor. }
  destruct (decide (List.length (X_index d) = List.length (Y d)
                    /\ List.length (weights d) = List.length (Y d))) as [Hd|Hd].
  2: { rewrite (loop_body_ragged _ _ _ _ d) by assumption.
       now apply case_ragged with d. }
  destruct (PyStr.isdigit (normalize_allele_name allele_name)) eqn:Hn.
  { rewrite (loop_body_numeric _ _ _ _ d) by assumption.
    now apply case_numeric with d. }
  destruct (decide (is_Some (fs !! json_path_of args allele_name)
                    /\ is_Some (fs !! hdf_path_of args allele_name)))
    as [Hm|Hm]; [destruct (overwrite args) eqn:Ho|].
  3: assert (Hm' : ~ (materialized args fs allele_name /\ overwrite args = false))
       by (intros [? _]; now apply Hm).
  1: assert (Hm' : ~ (materialized args fs allele_name /\ overwrite args = false))
       by (intros [_ ?]; congruence).
  2: { rewrite (loop_body_existing _ _ _ _ d) by assumption.
       now apply case_existing. }
  all: destruct (Z.lt_ge_cases (sample_count d) (min_samples_per_allele args))
    as [Hc|Hc].
  all: first
    [ rewrite (loop_body_too_few _ _ _ _ d) by assumption;
      now apply case_too_few
    | rewrite (loop_body_trained _ _ _ _ d) by assumption;
      now apply case_trained ].
Qed.

End LoopFacts.

(** ** Properties of the argument parser *)

(** C6: when an imputation-method string is supplied, parsing fails with a
    usage error unless the string, stripped of surrounding whitespace and
    lower-cased, is one of mice, knn, softimpute, svd, mean; and every
    variant of one of these five names in casing and in surrounding
    whitespace is accepted, as that name. *)
Theorem imputation_method_validated :
  (forall s,
      Cli.parse_imputation_method (Some s) = Cli.UsageError
      <-> ~ In (PyStr.lower (PyStr.strip s))
              ["mice"; "knn"; "softimpute"; "svd"; "mean"])
  /\ (forall s,
         In (PyStr.lower (PyStr.strip s))
           ["mice"; "knn"; "softimpute"; "svd"; "mean"] ->
         Cli.parse_imputation_method (Some s)
         = Cli.Parsed (Some (PyStr.lower (PyStr.strip s))))
  /\ (forall name variant pre post,
         In name ["mice"; "knn"; "softimpute"; "svd"; "mean"] ->
         PyStr.lower variant = name ->
         PyStr.all_space pre = true -> PyStr.all_space post = true ->
         Cli.parse_imputation_method (Some (pre ++ variant ++ post))
         = Cli.Parsed (Some name)).
Proof.
  assert (Hacc : forall s,
             In (PyStr.lower (PyStr.strip s)) Cli.choices ->
             Cli.parse_imputation_method (Some s)
             = Cli.Parsed (Some (PyStr.lower (PyStr.strip s)))).
  { intros s Hs. unfold Cli.parse_imputation_method, Cli.imputation_type.
    apply in_choices_In in Hs. cbv zeta. now rewrite Hs. }
  split; [|split].
  - intros s. unfold Cli.parse_imputation_method, Cli.imputation_type. cbv zeta.
    fold Cli.choices. rewrite <- in_choices_In.
    destruct (Cli.in_choices _).
    + split; [intros H; discriminate | intros H; now contradiction H].
    + split; [intros _ H; discriminate | reflexivity].
  - exact Hacc.
  - intros name variant pre post Hname Hlow Hpre Hpost.
    assert (Hv : has_space variant = false).
    { rewrite <- has_space_lower, Hlow. now apply choices_no_space. }
    pose proof (strip_padded pre variant post Hpre Hpost Hv) as Hstrip.
    rewrite Hacc; rewrite Hstrip, Hlow; [reflexivity | exact Hname].
Qed.

Lemma imputation_method_validated_witness :
  In "softimpute" ["mice"; "knn"; "softimpute"; "svd"; "mean"]
  /\ PyStr.lower "SoftImpute" = "softimpute"
  /\ PyStr.all_space "  " = true /\ PyStr.all_space " " = true
  /\ Cli.parse_imputation_method (Some ("  " ++ "SoftImpute" ++ " "))
     = Cli.Parsed (Some "softimpute").
Proof.
  assert (Hin : In "softimpute" ["mice"; "knn"; "softimpute"; "svd"; "mean"])
    by (simpl; tauto).
  split; [exact Hin|]. do 3 (split; [reflexivity|]).
  apply (proj2 (proj2 imputation_method_validated)
           "softimpute" "SoftImpute" "  " " " Hin); reflexivity.
Defined.

(** ** Properties of the training loop *)

Section LoopProperties.

Context `{C : Collaborators}.

Implicit Types (args : Args float) (fs : gmap string string).
Implicit Types (dict imputed : gmap string (AlleleData float)).
Implicit Types (d : AlleleData float) (allele_name : string).
Implicit Types (t : list event).

(** *** Traces *)

Lemma none_of_app kind t1 t2 :
  none_of kind (t1 ++ t2)%list <-> none_of kind t1 /\ none_of kind t2.
Proof. unfold none_of. rewrite forallb_app. apply andb_true_iff. Qed.

Lemma none_of_In kind t :
  none_of kind t <-> forall e, In e t -> kind e = false.
Proof.
  unfold none_of. rewrite forallb_forall. split; intros H e He.
  - apply negb_true_iff. now apply H.
  - apply negb_true_iff. now apply H.
Qed.

Lemma removals_no_fit args fs allele_name :
  none_of is_fit (removals args fs allele_name).
Proof. unfold removals. now do 2 case_bool_decide. Qed.

Lemma removals_no_write args fs allele_name t :
  written_paths (removals args fs allele_name ++ t)%list = written_paths t.
Proof. unfold removals. now do 2 case_bool_decide. Qed.

(** *** The loop as a whole *)

Lemma for_each_cons {A} (body : A -> M unit) x l fs :
  for_each body (x :: l) fs
  = match body x fs with
    | (Ok _, fs1, t1) =>
        match for_each body l fs1 with
        | (r, fs2, t2) => (r, fs2, (t1 ++ t2)%list)
        end
    | (Raise e, fs1, t1) => (Raise e, fs1, t1)
    end.
Proof. reflexivity. Qed.

(** An exception in an iteration ends the loop there: the alleles after it
    are not processed. *)
Lemma for_each_raise {A} (body : A -> M unit) pre x post fs0 fs t e fs' t' :
  for_each body pre fs0 = (Ok tt, fs, t) ->
  body x fs = (Raise e, fs', t') ->
  for_each body (pre ++ x :: post) fs0 = (Raise e, fs', (t ++ t')%list).
Proof.
  revert fs0 t. induction pre as [|y pre IH]; intros fs0 t Hpre Hx.
  - cbn in Hpre. injection Hpre as -> <-.
    change (([] ++ x :: post)%list) with (x :: post).
    rewrite for_each_cons, Hx. reflexivity.
  - change (((y :: pre) ++ x :: post)%list) with (y :: (pre ++ x :: post)%list).
    rewrite for_each_cons in Hpre |- *.
    destruct (body y fs0) as [[[[]|e0] fs1] t1]; [|discriminate].
    destruct (for_each body pre fs1) as [[r2 fs2] t2] eqn:E.
    injection Hpre as -> -> <-.
    rewrite (IH fs1 t2 E Hx). now rewrite app_assoc.
Qed.

(** The events of a loop are events of its iterations. *)
Lemma for_each_trace_In {A} (body : A -> M unit) l fs r fs' t e :
  for_each body l fs = (r, fs', t) -> In e t ->
  exists x fsx, In x l /\ In e (body x fsx).2.
Proof.
  revert fs r fs' t. induction l as [|x l IH]; intros fs r fs' t Hrun He.
  - cbn in Hrun. injection Hrun as _ _ <-. destruct He.
  - rewrite for_each_cons in Hrun.
    destruct (body x fs) as [[[[]|e0] fs1] t1] eqn:Ex.
    + destruct (for_each body l fs1) as [[r2 fs2] t2] eqn:El.
      injection Hrun as _ _ <-. apply in_app_or in He as [He|He].
      * exists x, fs. split; [now left|]. now rewrite Ex.
      * destruct (IH _ _ _ _ El He) as (y & fsy & Hy & Hey).
        exists y, fsy. split; [now right | exact Hey].
    + injection Hrun as _ _ <-.
      exists x, fs. split; [now left|]. now rewrite Ex.
Qed.

(** A model is fitted with the arguments [fit_args_of] computes. *)
Lemma loop_body_fit_args args dict imputed allele_name fs m a :
  In (Fitted m a) (loop_body args dict imputed allele_name fs).2 ->
  exists d, dict !! allele_name = Some d
            /\ a = fit_args_of args imputed allele_name d.
Proof.
  pose proof (loop_body_cases args dict imputed allele_name fs) as Hcase.
  destruct Hcase as [H0|d0 H0 Hd|d0 H0 Hd Hn|d0 H0 Hd Hn Hm Ho
                    |d0 H0 Hd Hn Hm Hlt|d0 H0 Hd Hn Hm Hge];
    cbn [snd]; intros Hin.
  1-5: repeat (destruct Hin as [Hin|Hin]; [discriminate|]); destruct Hin.
  exists d0. split; [exact H0|].
  apply in_app_or in Hin as [Hin|Hin];
    [repeat (destruct Hin as [Hin|Hin]; [discriminate|]); destruct Hin|].
  apply in_app_or in Hin as [Hin|Hin].
  - pose proof (removals_no_fit args fs allele_name) as Hq.
    rewrite none_of_In in Hq. specialize (Hq _ Hin). discriminate.
  - destruct Hin as [Hin|Hin]; [now injection Hin as _ <-|].
    repeat (destruct Hin as [Hin|Hin]; [discriminate|]). destruct Hin.
Qed.

(** *** Reruns *)

(** No iteration loses a file of the output directory. *)
Lemma loop_body_keeps_files args dict imputed allele_name fs path :
  file_exists fs path ->
  file_exists (loop_body args dict imputed allele_name fs).1.2 path.
Proof.
  intros Hp.
  destruct (loop_body_cases args dict imputed allele_name fs); cbn; try exact Hp.
  unfold file_exists. rewrite !lookup_insert. repeat case_decide; eauto.
Qed.

Lemma settled_mono args dict fs fs' allele_name :
  (forall path, file_exists fs path -> file_exists fs' path) ->
  settled args dict fs allele_name -> settled args dict fs' allele_name.
Proof.
  intros Hmono (d & H & Hd & Hcases). exists d. split; [exact H|].
  split; [exact Hd|]. destruct Hcases as [Hn|[[Hj Hh]|Hc]]; auto.
  right; left. split; now apply Hmono.
Qed.

(** Without overwrite, an iteration that returns leaves its allele
    settled. *)
Lemma loop_body_settles args dict imputed allele_name fs fs' t :
  overwrite args = false ->
  loop_body args dict imputed allele_name fs = (Ok tt, fs', t) ->
  settled args dict fs' allele_name.
Proof.
  intros Ho.
  destruct (loop_body_cases args dict imputed allele_name fs)
    as [H0|d0 H0 Hd|d0 H0 Hd Hn|d0 H0 Hd Hn Hm _
       |d0 H0 Hd Hn Hm Hlt|d0 H0 Hd Hn Hm Hge];
    intros E; try discriminate; injection E as <- _; exists d0;
    (split; [exact H0|split; [exact Hd|]]); auto.
  right; left. pose proof (json_hdf_distinct args allele_name) as Hjh.
  split; unfold file_exists; rewrite !lookup_insert; repeat case_decide; eauto;
    congruence.
Qed.

(** Without overwrite, the iteration of a settled allele is quiet and
    leaves the output directory as it is. *)
Lemma loop_body_settled args dict imputed allele_name fs :
  overwrite args = false -> settled args dict fs allele_name ->
  exists t, loop_body args dict imputed allele_name fs = (Ok tt, fs, t)
            /\ quiet t.
Proof.
  intros Ho (d & H & Hd & Hcases).
  destruct (loop_body_cases args dict imputed allele_name fs)
    as [H0|d0 H0 Hd0|d0 H0 Hd0 Hn|d0 H0 Hd0 Hn Hm _
       |d0 H0 Hd0 Hn Hm Hlt|d0 H0 Hd0 Hn Hm Hge];
    try (eexists; split; [reflexivity|split; reflexivity]).
  - congruence.
  - assert (d0 = d) by congruence. subst d0. contradiction.
  - assert (d0 = d) by congruence. subst d0.
    destruct Hcases as [Hn'|[Hmat|Hc]]; [congruence| |lia].
    contradiction Hm. now split.
Qed.

Lemma training_loop_settles args dict imputed alleles fs fs' t :
  overwrite args = false ->
  training_loop args dict imputed alleles fs = (Ok tt, fs', t) ->
  Forall (settled args dict fs') alleles
  /\ (forall path, file_exists fs path -> file_exists fs' path).
Proof.
  intros Ho. unfold training_loop.
  revert fs t. induction alleles as [|a l IH]; intros fs t Hrun.
  - cbn in Hrun. injection Hrun as <- _. split; [constructor | auto].
  - rewrite for_each_cons in Hrun.
    destruct (loop_body args dict imputed a fs) as [[[[]|e0] fs1] t1] eqn:Ea;
      [|discriminate].
    destruct (for_each _ l fs1) as [[r2 fs2] t2] eqn:El.
    injection Hrun as -> -> _.
    destruct (IH _ _ El) as [Hall Hmono].
    assert (Hkeep : forall path, file_exists fs path -> file_exists fs1 path).
    { intros path Hp.
      pose proof (loop_body_keeps_files args dict imputed a fs path Hp) as Hk.
      now rewrite Ea in Hk. }
    split; [constructor; [|exact Hall] | auto].
    apply (settled_mono _ _ fs1); [exact Hmono|].
    now apply (loop_body_settles _ _ imputed _ fs _ t1).
Qed.

Lemma training_loop_settled args dict imputed alleles fs :
  overwrite args = false ->
  Forall (settled args dict fs) alleles ->
  exists t, training_loop args dict imputed alleles fs = (Ok tt, fs, t)
            /\ quiet t.
Proof.
  intros Ho Hall. unfold training_loop.
  induction Hall as [|a l Ha Hl IH].
  - exists []. split; [reflexivity|split; reflexivity].
  - destruct (loop_body_settled _ _ imputed _ _ Ho Ha) as (t1 & E1 & Hq1 & Hq1').
    destruct IH as (t2 & E2 & Hq2 & Hq2').
    exists (t1 ++ t2)%list. rewrite for_each_cons, E1, E2.
    split; [reflexivity|]. split; apply none_of_app; now split.
Qed.

(** *** Main theorems *)

(** C1: for an allele with at least the minimum number of samples, whose
    two artifact files are not both present already (or with overwrite
    requested) and whose normalized name is not purely numeric, the
    iteration writes exactly two files, the structure file
    [<normalized name>.json] and the weights file [<normalized name>.hdf] of
    the output directory; they hold the fitted model, and every other file
    of the directory is as before. *)
Theorem trained_allele_gets_two_files args dict imputed allele_name d fs :
  dict !! allele_name = Some d ->
  well_formed d ->
  min_samples_per_allele args <= sample_count d ->
  ~ (materialized args fs allele_name /\ overwrite args = false) ->
  PyStr.isdigit (normalize_allele_name allele_name) = false ->
  let json_path :=
    PyStr.join (output_dir args) (normalize_allele_name allele_name ++ ".json") in
  let hdf_path :=
    PyStr.join (output_dir args) (normalize_allele_name allele_name ++ ".hdf") in
  let model := fitted_model args imputed allele_name d in
  exists fs' t,
    loop_body args dict imputed allele_name fs = (Ok tt, fs', t)
    /\ written_paths t = [json_path; hdf_path]
    /\ json_path <> hdf_path
    /\ fs' !! json_path = Some (model_json model)
    /\ fs' !! hdf_path = Some (model_weights model)
    /\ (forall path, path <> json_path -> path <> hdf_path ->
                     fs' !! path = fs !! path).
Proof.
  intros H Hd Hc Hm Hn json_path hdf_path model.
  pose proof (json_hdf_distinct args allele_name) as Hjh.
  fold (json_path_of args allele_name) in json_path.
  fold (hdf_path_of args allele_name) in hdf_path.
  eexists _, _. split; [apply (loop_body_trained _ _ _ _ d); assumption|].
  cbv zeta. fold model json_path hdf_path.
  split; [|split; [exact Hjh|split; [|split]]].
  - unfold preamble. cbn [app written_paths].
    now rewrite removals_no_write.
  - rewrite lookup_insert_ne by (intros E; now apply Hjh).
    apply lookup_insert_eq.
  - apply lookup_insert_eq.
  - intros path Hj Hh. now rewrite !lookup_insert_ne.
Qed.

(** C4: for an allele with fewer samples than the minimum, the iteration
    leaves the output directory as it is: it removes nothing and writes
    nothing (and fits no model). *)
Theorem too_few_samples_leaves_files_alone args dict imputed allele_name d fs :
  dict !! allele_name = Some d ->
  sample_count d < min_samples_per_allele args ->
  exists r t,
    loop_body args dict imputed allele_name fs = (r, fs, t)
    /\ none_of touches_files t
    /\ none_of is_fit t.
Proof.
  intros H Hc.
  pose proof (loop_body_cases args dict imputed allele_name fs) as Hcase.
  destruct Hcase as [H0|d0 H0 Hd|d0 H0 Hd Hn|d0 H0 Hd Hn Hm Ho
                    |d0 H0 Hd Hn Hm Hlt|d0 H0 Hd Hn Hm Hge];
    try (eexists _, _; split; [reflexivity|split; reflexivity]).
  assert (d0 = d) by congruence. subst d0. lia.
Qed.

(** C5: an allele whose name normalizes to a purely numeric string is never
    constructed, fitted or persisted, whatever the overwrite flag, the
    threshold and the output directory; when its dataset is there and well
    formed, the iteration prints the skip message and the loop continues. *)
Theorem numeric_name_always_skipped args dict imputed allele_name fs :
  PyStr.isdigit (normalize_allele_name allele_name) = true ->
  (exists r t,
      loop_body args dict imputed allele_name fs = (r, fs, t)
      /\ none_of is_construction t
      /\ none_of is_fit t
      /\ none_of touches_files t)
  /\ (forall d,
         dict !! allele_name = Some d -> well_formed d ->
         loop_body args dict imputed allele_name fs
         = (Ok tt, fs,
            [Print (SkippingAllele (normalize_allele_name allele_name))])).
Proof.
  intros Hn. split.
  - pose proof (loop_body_cases args dict imputed allele_name fs) as Hcase.
    destruct Hcase; try congruence;
      eexists _, _; (split; [reflexivity|repeat split]).
  - intros d H Hd. now apply loop_body_numeric with d.
Qed.

(** C8: when the lengths of [X_index], [Y] and [weights] of an allele the
    loop processes are not all equal, the iteration raises
    [AssertionError] with nothing constructed and nothing written, and the
    loop ends there; when they are equal, the iteration never raises
    [AssertionError]. *)
Theorem length_mismatch_is_fatal args dict imputed allele_name d fs :
  dict !! allele_name = Some d ->
  (~ well_formed d ->
   loop_body args dict imputed allele_name fs = (Raise AssertionError, fs, [])
   /\ forall pre post fs0 t,
       training_loop args dict imputed pre fs0 = (Ok tt, fs, t) ->
       training_loop args dict imputed (pre ++ allele_name :: post)%list fs0
       = (Raise AssertionError, fs, t))
  /\ (well_formed d ->
      forall r fs' t,
        loop_body args dict imputed allele_name fs = (r, fs', t) ->
        r <> Raise AssertionError).
Proof.
  intros H. split.
  - intros Hd.
    pose proof (loop_body_ragged args dict imputed allele_name d fs H Hd) as E.
    split; [exact E|].
    intros pre post fs0 t Hpre. unfold training_loop in *.
    rewrite (for_each_raise _ _ _ post _ _ _ _ _ _ Hpre E).
    now rewrite app_nil_r.
  - intros Hd r fs' t E.
    pose proof (loop_body_cases args dict imputed allele_name fs) as Hcase.
    destruct Hcase as [H0|d0 H0 Hd0| | | |];
      injection E as <- _ _; try discriminate.
    assert (d0 = d) by congruence. subst d0. contradiction.
Qed.

(** C10: an allele name of the list that is not a key of the loaded dataset
    mapping raises [KeyError] when the loop reaches it; the output directory
    and the trace are those left by the alleles before it, so nothing is
    fitted or written for it or for any allele after it. *)
Theorem unknown_allele_is_fatal args dict allele_name :
  dict !! allele_name = None ->
  (forall imputed fs,
      loop_body args dict imputed allele_name fs
      = (Raise (KeyError allele_name), fs, []))
  /\ (forall imputed pre post fs0 fs t,
         training_loop args dict imputed pre fs0 = (Ok tt, fs, t) ->
         training_loop args dict imputed (pre ++ allele_name :: post)%list fs0
         = (Raise (KeyError allele_name), fs, t))
  /\ (forall pre post fs0 fs t,
         alleles args = (pre ++ allele_name :: post)%list ->
         training_loop args dict (imputed_data_dict_of args dict) pre fs0
         = (Ok tt, fs, t) ->
         train args dict fs0 = (Raise (KeyError allele_name), fs, t)).
Proof.
  intros H.
  assert (Hloop : forall imputed pre post fs0 fs t,
             training_loop args dict imputed pre fs0 = (Ok tt, fs, t) ->
             training_loop args dict imputed (pre ++ allele_name :: post)%list fs0
             = (Raise (KeyError allele_name), fs, t)).
  { intros imputed pre post fs0 fs t Hpre. unfold training_loop in *.
    rewrite (for_each_raise _ _ _ post _ _ _ _ _ _ Hpre
               (loop_body_missing args dict imputed allele_name fs H)).
    now rewrite app_nil_r. }
  split; [|split].
  - intros imputed fs. now apply loop_body_missing.
  - exact Hloop.
  - intros pre post fs0 fs t Hargs Hpre. unfold train, alleles_of.
    rewrite Hargs. destruct (pre ++ allele_name :: post)%list eqn:E.
    + now destruct pre.
    + rewrite <- E. now apply Hloop.
Qed.

(** C2: with overwrite unset, an allele whose two artifact files are both
    in the output directory is skipped: the iteration returns, the loop
    goes on, no model is fitted and the directory is as before.  So the loop
    is idempotent: run on a directory where every allele of the list is
    materialized, or run again after a run that completed, it fits nothing
    and changes nothing. *)
Theorem materialized_allele_is_skipped args dict imputed :
  overwrite args = false ->
  (forall allele_name d fs,
      dict !! allele_name = Some d -> well_formed d ->
      materialized args fs allele_name ->
      exists t,
        loop_body args dict imputed allele_name fs = (Ok tt, fs, t)
        /\ none_of is_fit t /\ none_of touches_files t)
  /\ (forall alleles fs,
         Forall (fun allele_name =>
                   (exists d, dict !! allele_name = Some d /\ well_formed d)
                   /\ materialized args fs allele_name) alleles ->
         exists t,
           training_loop args dict imputed alleles fs = (Ok tt, fs, t)
           /\ none_of is_fit t /\ none_of touches_files t)
  /\ (forall alleles fs0 fs1 t1,
         training_loop args dict imputed alleles fs0 = (Ok tt, fs1, t1) ->
         exists t2,
           training_loop args dict imputed alleles fs1 = (Ok tt, fs1, t2)
           /\ none_of is_fit t2 /\ none_of touches_files t2).
Proof.
  intros Ho. split; [|split].
  - intros allele_name d fs H Hd Hm.
    apply loop_body_settled; [exact Ho|].
    exists d. auto.
  - intros alleles fs Hall.
    apply training_loop_settled; [exact Ho|].
    eapply Forall_impl; [exact Hall|].
    intros a [(d & H & Hd) Hm]. exists d. auto.
  - intros alleles fs0 fs1 t1 Hrun.
    apply training_loop_settled; [exact Ho|].
    now apply (training_loop_settles _ _ imputed _ fs0 _ t1).
Qed.

(** C3, as amended: for an allele the loop trains (in the dataset, well
    formed, name not purely numeric, at least the minimum number of
    samples), when overwrite is set, every artifact file of the allele that
    is in the output directory is removed before the fitted model's files
    are written, and both files hold the new model afterwards. *)
Theorem overwrite_removes_before_writing args dict imputed allele_name d fs :
  overwrite args = true ->
  dict !! allele_name = Some d -> well_formed d ->
  PyStr.isdigit (normalize_allele_name allele_name) = false ->
  min_samples_per_allele args <= sample_count d ->
  let json_path := json_path_of args allele_name in
  let hdf_path := hdf_path_of args allele_name in
  let model := fitted_model args imputed allele_name d in
  exists fs' before,
    loop_body args dict imputed allele_name fs
    = (Ok tt, fs',
       (before ++ [Fitted (from_hyperparameters
                             (hyperparameters_of args allele_name))
                     (fit_args_of args imputed allele_name d);
                   Written json_path (model_json model);
                   Written hdf_path (model_weights model)])%list)
    /\ written_paths before = []
    /\ (forall path, path = json_path \/ path = hdf_path ->
                     file_exists fs path -> In (Removed path) before)
    /\ fs' !! json_path = Some (model_json model)
    /\ fs' !! hdf_path = Some (model_weights model).
Proof.
  intros Ho H Hd Hn Hc json_path hdf_path model.
  pose proof (json_hdf_distinct args allele_name) as Hjh.
  assert (Hm : ~ (materialized args fs allele_name /\ overwrite args = false))
    by (intros [_ ?]; congruence).
  exists (<[hdf_path := model_weights model]>
            (<[json_path := model_json model]> fs)),
    (preamble args allele_name d ++ removals args fs allele_name)%list.
  split; [|split; [|split; [|split]]].
  - rewrite (loop_body_trained _ _ _ _ d) by assumption.
    cbv zeta. now rewrite <- app_assoc.
  - unfold preamble. cbn [app written_paths].
    rewrite <- (app_nil_r (removals _ _ _)). apply removals_no_write.
  - intros path Hp Hex. apply in_or_app. right. unfold removals.
    apply in_or_app.
    destruct Hp as [-> | ->]; [left | right];
      rewrite bool_decide_eq_true_2 by exact Hex; right; now left.
  - rewrite lookup_insert_ne by (intros E; now apply Hjh).
    apply lookup_insert_eq.
  - apply lookup_insert_eq.
Qed.

(** C7: when no imputation method is selected the imputed-dataset mapping
    is empty; for an allele that is not in the mapping, the three
    pre-training arguments of every call of [fit] are [None]; so without an
    imputation method every model of the run is fitted on raw data only. *)
Theorem no_imputation_no_pretraining args dict :
  (imputation_method args = None -> imputed_data_dict_of args dict = ∅)
  /\ (forall imputed allele_name fs m a,
         imputed !! allele_name = None ->
         In (Fitted m a) (loop_body args dict imputed allele_name fs).2 ->
         fit_X_pretrain a = None /\ fit_Y_pretrain a = None
         /\ fit_sample_weights_pretrain a = None)
  /\ (imputation_method args = None ->
      forall fs m a,
        In (Fitted m a) (train args dict fs).2 ->
        fit_X_pretrain a = None /\ fit_Y_pretrain a = None
        /\ fit_sample_weights_pretrain a = None).
Proof.
  assert (Hempty : imputation_method args = None ->
                   imputed_data_dict_of args dict = ∅).
  { intros E. unfold imputed_data_dict_of. now rewrite E. }
  assert (Hiter : forall imputed allele_name fs m a,
             imputed !! allele_name = None ->
             In (Fitted m a) (loop_body args dict imputed allele_name fs).2 ->
             fit_X_pretrain a = None /\ fit_Y_pretrain a = None
             /\ fit_sample_weights_pretrain a = None).
  { intros imputed allele_name fs m a Hi Hin.
    destruct (loop_body_fit_args _ _ _ _ _ _ _ Hin) as (d & _ & ->).
    unfold fit_args_of. cbn. now rewrite Hi. }
  split; [exact Hempty|split; [exact Hiter|]].
  intros E fs m a Hin. unfold train in Hin. rewrite (Hempty E) in Hin.
  unfold training_loop in Hin.
  destruct (for_each _ _ fs) as [[r fs'] t] eqn:Erun. cbn [snd] in Hin.
  destruct (for_each_trace_In _ _ _ _ _ _ _ Erun Hin) as (x & fsx & _ & Hx).
  apply (Hiter ∅ x fsx m a); [apply lookup_empty | exact Hx].
Qed.

(** C9, as amended: with overwrite unset, for an allele with enough samples
    whose normalized name is not purely numeric, when exactly one of the two
    artifact files is in the output directory the allele is not skipped:
    the file that is there is removed, the model is fitted, and both files
    are written. *)
Theorem half_materialized_allele_is_retrained
    args dict imputed allele_name d fs :
  overwrite args = false ->
  dict !! allele_name = Some d -> well_formed d ->
  min_samples_per_allele args <= sample_count d ->
  PyStr.isdigit (normalize_allele_name allele_name) = false ->
  let json_path := json_path_of args allele_name in
  let hdf_path := hdf_path_of args allele_name in
  let model := fitted_model args imputed allele_name d in
  (file_exists fs json_path /\ ~ file_exists fs hdf_path)
  \/ (~ file_exists fs json_path /\ file_exists fs hdf_path) ->
  exists fs',
    loop_body args dict imputed allele_name fs
    = (Ok tt, fs',
       (preamble args allele_name d
        ++ (if bool_decide (file_exists fs json_path)
            then [Print (RemovingOldModelDescription json_path);
                  Removed json_path]
            else [Print (RemovingOldWeightsFile hdf_path); Removed hdf_path])
        ++ [Fitted (from_hyperparameters
                      (hyperparameters_of args allele_name))
              (fit_args_of args imputed allele_name d);
            Written json_path (model_json model);
            Written hdf_path (model_weights model)])%list)
    /\ fs' !! json_path = Some (model_json model)
    /\ fs' !! hdf_path = Some (model_weights model).
Proof.
  intros Ho H Hd Hc Hn json_path hdf_path model Hone.
  pose proof (json_hdf_distinct args allele_name) as Hjh.
  assert (Hm : ~ (materialized args fs allele_name /\ overwrite args = false)).
  { intros [[Hj Hh] _]. destruct Hone as [[_ Hx]|[Hx _]]; now apply Hx. }
  exists (<[hdf_path := model_weights model]>
            (<[json_path := model_json model]> fs)).
  split; [|split].
  - rewrite (loop_body_trained _ _ _ _ d) by assumption.
    cbv zeta. unfold removals. fold json_path hdf_path model.
    destruct Hone as [[Hj Hh]|[Hj Hh]].
    + rewrite (bool_decide_eq_true_2 _ Hj), (bool_decide_eq_false_2 _ Hh).
      reflexivity.
    + rewrite (bool_decide_eq_false_2 _ Hj), (bool_decide_eq_true_2 _ Hh).
      reflexivity.
  - rewrite lookup_insert_ne by (intros E; now apply Hjh).
    apply lookup_insert_eq.
  - apply lookup_insert_eq.
Qed.

End LoopProperties.

(** ** The script on explicit inputs *)

Section Examples.

Import Demo.

Lemma demo_no_file path : ~ file_exists (∅ : gmap string string) path.
Proof. intros [c Hc]. now rewrite lookup_empty in Hc. Qed.

(** Ten samples, threshold five, empty output directory: the two files of
    the allele are written. *)
Lemma trained_allele_gets_two_files_witness :
  exists fs' t,
    @loop_body collaborators (args false 5 []) dataset ∅ "A*02:01" ∅
    = (Ok tt, fs', t)
    /\ written_paths t = ["models/A0201.json"; "models/A0201.hdf"]
    /\ fs' !! "models/A0201.json" = Some "json:A0201+fit"
    /\ fs' !! "models/A0201.hdf" = Some "hdf:A0201+fit".
Proof.
  destruct (@trained_allele_gets_two_files collaborators (args false 5 [])
              dataset ∅ "A*02:01" (samples 10) ∅)
    as (fs' & t & E & Hw & _ & Hj & Hh & _).
  - reflexivity.
  - split; reflexivity.
  - vm_compute. discriminate.
  - intros [[Hj _] _]. exact (demo_no_file _ Hj).
  - reflexivity.
  - exists fs', t. repeat split; assumption.
Defined.

(** Both files present, no overwrite: skipped. *)
Lemma materialized_allele_is_skipped_witness :
  exists t,
    @loop_body collaborators (args false 5 []) dataset ∅ "A*02:01"
      (both_files "A0201")
    = (Ok tt, both_files "A0201", t)
    /\ none_of is_fit t /\ none_of touches_files t.
Proof.
  apply (proj1 (@materialized_allele_is_skipped collaborators
                  (args false 5 []) dataset ∅ eq_refl)
           "A*02:01" (samples 10) (both_files "A0201")).
  - reflexivity.
  - split; reflexivity.
  - split; eexists; vm_compute; reflexivity.
Defined.

(** Overwrite set, both files present, ten samples: both are removed, then
    both are written. *)
Lemma overwrite_removes_before_writing_witness :
  exists (fs' : gmap string string) (before : list (@event collaborators)),
    (@loop_body collaborators (args true 5 []) dataset ∅ "A*02:01"
       (both_files "A0201")).2
    = (before
       ++ [@Fitted collaborators "A0201"
             (@fit_args_of collaborators (args true 5 []) ∅ "A*02:01"
                (samples 10));
           Written "models/A0201.json" "json:A0201+fit";
           Written "models/A0201.hdf" "hdf:A0201+fit"])%list
    /\ In (Removed "models/A0201.json") before
    /\ In (Removed "models/A0201.hdf") before
    /\ fs' !! "models/A0201.json" = Some "json:A0201+fit".
Proof.
  destruct (@overwrite_removes_before_writing collaborators (args true 5 [])
              dataset ∅ "A*02:01" (samples 10) (both_files "A0201"))
    as (fs' & before & E & _ & Hrm & Hj & _).
  - reflexivity.
  - reflexivity.
  - split; reflexivity.
  - reflexivity.
  - vm_compute. discriminate.
  - exists fs', before. split; [now rewrite E|].
    split; [|split; [|exact Hj]].
    + apply Hrm; [now left|]. eexists. vm_compute. reflexivity.
    + apply Hrm; [now right|]. eexists. vm_compute. reflexivity.
Defined.

(** Three samples, threshold five: nothing happens to the files. *)
Lemma too_few_samples_leaves_files_alone_witness :
  exists r t,
    @loop_body collaborators (args true 5 []) dataset ∅ "B*07:02"
      (json_only "B0702")
    = (r, json_only "B0702", t)
    /\ none_of touches_files t /\ none_of is_fit t.
Proof.
  apply (@too_few_samples_leaves_files_alone collaborators (args true 5 [])
           dataset ∅ "B*07:02" (samples 3) (json_only "B0702")).
  - reflexivity.
  - vm_compute. reflexivity.
Defined.

(** The name 123 is skipped. *)
Lemma numeric_name_always_skipped_witness :
  @loop_body collaborators (args true 0 []) dataset ∅ "123" ∅
  = (Ok tt, ∅, [Print (SkippingAllele "123")]).
Proof.
  apply (proj2 (@numeric_name_always_skipped collaborators (args true 0 [])
                  dataset ∅ "123" ∅ eq_refl) (samples 10)).
  - reflexivity.
  - split; reflexivity.
Defined.

(** Without an imputation method the model of the allele is fitted
    without pre-training data. *)
Lemma no_imputation_no_pretraining_witness :
  fit_X_pretrain
    (@fit_args_of collaborators (args false 5 []) ∅ "A*02:01" (samples 10))
  = None
  /\ fit_Y_pretrain
       (@fit_args_of collaborators (args false 5 []) ∅ "A*02:01" (samples 10))
     = None
  /\ fit_sample_weights_pretrain
       (@fit_args_of collaborators (args false 5 []) ∅ "A*02:01" (samples 10))
     = None.
Proof.
  apply (proj2 (proj2 (@no_imputation_no_pretraining collaborators
                         (args false 5 []) dataset)) eq_refl ∅ "A0201").
  vm_compute. do 3 right. left. reflexivity.
Defined.

(** Two rows of encodings for three measurements: [AssertionError]. *)
Lemma length_mismatch_is_fatal_witness :
  @loop_body collaborators (args false 5 []) dataset ∅ "C*01:02" ∅
  = (Raise AssertionError, ∅, []).
Proof.
  apply (proj1 (@length_mismatch_is_fatal collaborators (args false 5 [])
                  dataset ∅ "C*01:02" ragged ∅ eq_refl)).
  intros [E _]. discriminate E.
Defined.

(** Only the JSON file is there, no overwrite: it is removed and the allele
    is trained. *)
Lemma half_materialized_allele_is_retrained_witness :
  exists fs',
    (@loop_body collaborators (args false 5 []) dataset ∅ "A*02:01"
       (json_only "A0201")).1
    = (Ok tt, fs')
    /\ fs' !! "models/A0201.json" = Some "json:A0201+fit"
    /\ fs' !! "models/A0201.hdf" = Some "hdf:A0201+fit".
Proof.
  destruct (@half_materialized_allele_is_retrained collaborators
              (args false 5 []) dataset ∅ "A*02:01" (samples 10)
              (json_only "A0201"))
    as (fs' & E & Hj & Hh).
  - reflexivity.
  - reflexivity.
  - split; reflexivity.
  - vm_compute. discriminate.
  - reflexivity.
  - left. split.
    + eexists. vm_compute. reflexivity.
    + intros [c Hc]. vm_compute in Hc. discriminate.
  - exists fs'. split; [now rewrite E|]. now split.
Defined.

(** The allele D is not in the dataset: [KeyError], after the alleles before
    it have been processed. *)
Lemma unknown_allele_is_fatal_witness :
  @training_loop collaborators (args false 5 []) dataset ∅
    ["123"; "D"; "A*02:01"] ∅
  = (Raise (KeyError "D"), ∅, [Print (SkippingAllele "123")]).
Proof.
  apply (proj1 (proj2 (@unknown_allele_is_fatal collaborators
                         (args false 5 []) dataset "D" eq_refl))
           ∅ ["123"] ["A*02:01"]).
  reflexivity.
Defined.

(** *** Inputs on which the unrestricted statements fail *)

(** C3 as stated, for every allele: with overwrite set, an allele with
    three samples and threshold five is skipped; its two old files are not
    removed and keep their old content. *)
Lemma overwrite_keeps_files_of_skipped_allele :
  overwrite (args true 5 []) = true
  /\ dataset !! "B*07:02" = Some (samples 3)
  /\ @json_path_of collaborators (args true 5 []) "B*07:02"
     = "models/B0702.json"
  /\ @hdf_path_of collaborators (args true 5 []) "B*07:02"
     = "models/B0702.hdf"
  /\ @loop_body collaborators (args true 5 []) dataset ∅ "B*07:02"
       (both_files "B0702")
     = (Ok tt, both_files "B0702",
        (@preamble collaborators (args true 5 []) "B*07:02" (samples 3)
         ++ [Print TooFewDataPoints])%list)
  /\ both_files "B0702" !! "models/B0702.json" = Some "old"
  /\ both_files "B0702" !! "models/B0702.hdf" = Some "old".
Proof.
  repeat split; vm_compute; reflexivity.
Qed.

(** C9 as stated, for every allele: the allele 123 has ten samples and
    only its JSON file is there, overwrite is unset, and yet it is skipped:
    the file stays and nothing is fitted. *)
Lemma half_materialized_numeric_allele_is_skipped :
  overwrite (args false 5 []) = false
  /\ dataset !! "123" = Some (samples 10)
  /\ 5 <= @sample_count collaborators (samples 10)
  /\ @json_path_of collaborators (args false 5 []) "123" = "models/123.json"
  /\ json_only "123" !! "models/123.json" = Some "old"
  /\ json_only "123" !! @hdf_path_of collaborators (args false 5 []) "123"
     = None
  /\ @loop_body collaborators (args false 5 []) dataset ∅ "123"
       (json_only "123")
     = (Ok tt, json_only "123", [Print (SkippingAllele "123")]).
Proof.
  repeat split; vm_compute; try reflexivity. discriminate.
Qed.

End Examples.

(** ** Properties of whole runs *)

Section RunProperties.

Context `{C : Collaborators}.

Implicit Types (args : Args float) (fs : gmap string string).
Implicit Types (dict imputed : gmap string (AlleleData float)).
Implicit Types (d : AlleleData float) (allele_name : string).
Implicit Types (t : list event).

(** *** The alleles of a run *)

Lemma string_leb_total :
  Total (fun a b : string => Is_true (String.leb a b)).
Proof.
  intros a b. destruct (String.leb_total a b) as [H|H]; rewrite H; simpl; auto.
Qed.

Lemma Sorted_weaken {A} (R R' : A -> A -> Prop) (l : list A) :
  (forall a b, R a b -> R' a b) -> Sorted R l -> Sorted R' l.
Proof.
  intros HR. induction 1 as [|a l Hl IH Hhd]; constructor; [exact IH|].
  destruct Hhd; constructor. now apply HR.
Qed.

Lemma sorted_keys_elem {V} (m : gmap string V) (a : string) :
  In a (sorted_keys m) <-> is_Some (m !! a).
Proof.
  unfold sorted_keys. rewrite <- list_elem_of_In, merge_sort_Permutation.
  change (map fst (map_to_list m)) with ((map_to_list m).*1).
  rewrite list_elem_of_fmap. split.
  - intros ([k v] & -> & Hkv). apply elem_of_map_to_list in Hkv. eauto.
  - intros [v Hv]. exists (a, v). split; [reflexivity|].
    now apply elem_of_map_to_list.
Qed.

(** X1: when no allele is given on the command line, the loop goes through
    the keys of the dataset mapping, each once, in ascending order. *)
Theorem default_alleles_are_the_sorted_keys args dict :
  alleles args = [] ->
  Sorted (fun a b => String.leb a b = true) (alleles_of args dict)
  /\ NoDup (alleles_of args dict)
  /\ (forall allele_name,
         In allele_name (alleles_of args dict)
         <-> is_Some (dict !! allele_name)).
Proof.
  intros E. unfold alleles_of. rewrite E. split; [|split].
  - unfold sorted_keys.
    eapply Sorted_weaken;
      [|apply (@Sorted_merge_sort _ _ _ string_leb_total)].
    intros a b H. now apply Is_true_true.
  - unfold sorted_keys. rewrite merge_sort_Permutation.
    apply NoDup_fst_map_to_list.
  - intros a. apply sorted_keys_elem.
Qed.

(** *** Exceptions *)

Lemma loop_no_key_error args dict imputed alleles fs key :
  (forall allele_name, In allele_name alleles -> is_Some (dict !! allele_name)) ->
  (training_loop args dict imputed alleles fs).1.1 <> Raise (KeyError key).
Proof.
  unfold training_loop. revert fs.
  induction alleles as [|a l IH]; intros fs Hin; [discriminate|].
  rewrite for_each_cons.
  destruct (loop_body_cases args dict imputed a fs)
    as [H0| | | | |]; try discriminate.
  - destruct (Hin a (or_introl eq_refl)) as [d Hd]. congruence.
  - specialize (IH fs (fun x Hx => Hin x (or_intror Hx))).
    now destruct (for_each _ l fs) as [[r2 fs2] t2].
  - specialize (IH fs (fun x Hx => Hin x (or_intror Hx))).
    now destruct (for_each _ l fs) as [[r2 fs2] t2].
  - specialize (IH fs (fun x Hx => Hin x (or_intror Hx))).
    now destruct (for_each _ l fs) as [[r2 fs2] t2].
  - match goal with |- context [for_each _ l ?fs1] =>
      specialize (IH fs1 (fun x Hx => Hin x (or_intror Hx)));
      now destruct (for_each _ l fs1) as [[r2 fs2] t2]
    end.
Qed.

(** X2: a run without alleles on the command line never ends with
    [KeyError], whatever the dataset and the output directory. *)
Theorem default_run_never_raises_key_error args dict fs key :
  alleles args = [] ->
  (train args dict fs).1.1 <> Raise (KeyError key).
Proof.
  intros E. unfold train. apply loop_no_key_error.
  intros a Ha. unfold alleles_of in Ha. rewrite E in Ha.
  now apply sorted_keys_elem.
Qed.

(** X3: when every allele of the list is in the dataset with arrays of
    equal lengths, the loop goes through the whole list without an
    exception. *)
Theorem well_formed_alleles_complete args dict imputed alleles fs :
  (forall allele_name,
      In allele_name alleles ->
      exists d, dict !! allele_name = Some d /\ well_formed d) ->
  exists fs' t,
    training_loop args dict imputed alleles fs = (Ok tt, fs', t).
Proof.
  unfold training_loop. revert fs.
  induction alleles as [|a l IH]; intros fs Hin.
  - exists fs, []. reflexivity.
  - rewrite for_each_cons.
    destruct (Hin a (or_introl eq_refl)) as (d & Hd & Hwf).
    assert (Hl : forall x, In x l ->
                   exists d, dict !! x = Some d /\ well_formed d)
      by (intros x Hx; apply Hin; now right).
    destruct (loop_body_cases args dict imputed a fs)
      as [H0|d0 H0 Hd0| | | |].
    + congruence.
    + assert (d0 = d) by congruence. subst d0. contradiction.
    + destruct (IH fs Hl) as (fs' & t & ->). eauto.
    + destruct (IH fs Hl) as (fs' & t & ->). eauto.
    + destruct (IH fs Hl) as (fs' & t & ->). eauto.
    + match goal with |- context [for_each _ l ?fs1] =>
        destruct (IH fs1 Hl) as (fs' & t & ->)
      end. eauto.
Qed.

(** *** The output directory after a run *)

Lemma loop_body_dom args dict imputed allele_name fs fs1 t1 :
  loop_body args dict imputed allele_name fs = (Ok tt, fs1, t1) ->
  dom fs1
  = dom fs ∪ (if eligible args dict allele_name
              then {[json_path_of args allele_name;
                     hdf_path_of args allele_name]}
              else ∅).
Proof.
  unfold eligible.
  destruct (loop_body_cases args dict imputed allele_name fs)
    as [H0|d0 H0 Hd|d0 H0 Hd Hn|d0 H0 Hd Hn Hm Ho
       |d0 H0 Hd Hn Hm Hlt|d0 H0 Hd Hn Hm Hge];
    intros E; try discriminate; injection E as <- _; rewrite H0, Hn; cbn.
  - set_solver.
  - destruct Hm as [Hj Hh]. apply elem_of_dom in Hj, Hh.
    destruct (_ <=? _); set_solver.
  - apply Z.leb_gt in Hlt. rewrite Hlt. set_solver.
  - apply Z.leb_le in Hge. rewrite Hge. rewrite !dom_insert_L. set_solver.
Qed.

(** X4: after a run of the loop that completes, the files of the output
    directory are those that were there before and the two artifact files
    of every allele of the list that is in the dataset, has a name that is
    not purely numeric and has at least the minimum number of samples. *)
Theorem files_after_a_run args dict imputed alleles fs fs' t :
  training_loop args dict imputed alleles fs = (Ok tt, fs', t) ->
  dom fs' = dom fs ∪ artifact_paths args dict alleles.
Proof.
  unfold training_loop. revert fs t.
  induction alleles as [|a l IH]; intros fs t Hrun.
  - cbn in Hrun. injection Hrun as <- _. cbn. set_solver.
  - rewrite for_each_cons in Hrun.
    destruct (loop_body args dict imputed a fs) as [[[[]|e0] fs1] t1] eqn:Ea;
      [|discriminate].
    destruct (for_each _ l fs1) as [[r2 fs2] t2] eqn:El.
    injection Hrun as -> -> _.
    rewrite (IH _ _ El), (loop_body_dom _ _ _ _ _ _ _ Ea). cbn.
    set_solver.
Qed.

Lemma loop_body_frame args dict imputed allele_name fs path :
  path <> json_path_of args allele_name ->
  path <> hdf_path_of args allele_name ->
  (loop_body args dict imputed allele_name fs).1.2 !! path = fs !! path.
Proof.
  intros Hj Hh.
  destruct (loop_body_cases args dict imputed allele_name fs); cbn;
    try reflexivity.
  now rewrite !lookup_insert_ne.
Qed.

(** X5: a path that is not an artifact path of an allele of the list holds
    after the loop what it held before, whether the loop completes or ends
    with an exception. *)
Theorem other_paths_are_untouched args dict imputed alleles fs path :
  (forall allele_name,
      In allele_name alleles ->
      path <> json_path_of args allele_name
      /\ path <> hdf_path_of args allele_name) ->
  (training_loop args dict imputed alleles fs).1.2 !! path = fs !! path.
Proof.
  unfold training_loop. revert fs.
  induction alleles as [|a l IH]; intros fs Hin; [reflexivity|].
  rewrite for_each_cons.
  destruct (Hin a (or_introl eq_refl)) as [Hj Hh].
  pose proof (loop_body_frame args dict imputed a fs path Hj Hh) as Hframe.
  destruct (loop_body args dict imputed a fs) as [[[[]|e0] fs1] t1];
    cbn in Hframe; [|exact Hframe].
  specialize (IH fs1 (fun x Hx => Hin x (or_intror Hx))).
  destruct (for_each _ l fs1) as [[r2 fs2] t2]. cbn in IH |- *.
  now rewrite IH.
Qed.

(** *** What is fitted *)

Lemma loop_body_fit_eligible args dict imputed allele_name fs m a :
  In (Fitted m a) (loop_body args dict imputed allele_name fs).2 ->
  exists d, dict !! allele_name = Some d
            /\ well_formed d
            /\ eligible args dict allele_name = true
            /\ m = from_hyperparameters (hyperparameters_of args allele_name)
            /\ a = fit_args_of args imputed allele_name d.
Proof.
  pose proof (loop_body_cases args dict imputed allele_name fs) as Hcase.
  destruct Hcase as [H0|d0 H0 Hd|d0 H0 Hd Hn|d0 H0 Hd Hn Hm Ho
                    |d0 H0 Hd Hn Hm Hlt|d0 H0 Hd Hn Hm Hge];
    cbn [snd]; intros Hin.
  1-5: repeat (destruct Hin as [Hin|Hin]; [discriminate|]); destruct Hin.
  exists d0. split; [exact H0|]. split; [exact Hd|].
  split.
  { unfold eligible. rewrite H0, Hn. cbn. now apply Z.leb_le. }
  apply in_app_or in Hin as [Hin|Hin];
    [repeat (destruct Hin as [Hin|Hin]; [discriminate|]); destruct Hin|].
  apply in_app_or in Hin as [Hin|Hin].
  - pose proof (removals_no_fit args fs allele_name) as Hq.
    rewrite none_of_In in Hq. specialize (Hq _ Hin). discriminate.
  - destruct Hin as [Hin|Hin]; [injection Hin as <- <-; now split|].
    repeat (destruct Hin as [Hin|Hin]; [discriminate|]). destruct Hin.
Qed.

(** X6: the loop fits a model only for an allele of the list that is in the
    dataset with arrays of equal lengths, whose normalized name is not
    purely numeric and that has at least the minimum number of samples; the
    model is built from the hyperparameters of the command line under the
    normalized name. *)
Theorem only_eligible_alleles_are_fitted args dict imputed alleles fs m a :
  In (Fitted m a) (training_loop args dict imputed alleles fs).2 ->
  exists allele_name d,
    In allele_name alleles
    /\ dict !! allele_name = Some d
    /\ well_formed d
    /\ PyStr.isdigit (normalize_allele_name allele_name) = false
    /\ min_samples_per_allele args <= sample_count d
    /\ m = from_hyperparameters (hyperparameters_of args allele_name)
    /\ a = fit_args_of args imputed allele_name d.
Proof.
  intros Hin. unfold training_loop in Hin.
  destruct (for_each _ alleles fs) as [[r fs'] t] eqn:Erun. cbn [snd] in Hin.
  destruct (for_each_trace_In _ _ _ _ _ _ _ Erun Hin) as (x & fsx & Hx & Hex).
  destruct (loop_body_fit_eligible _ _ _ _ _ _ _ Hex)
    as (d & Hd & Hwf & Hel & -> & ->).
  exists x, d. unfold eligible in Hel. rewrite Hd in Hel.
  apply andb_true_iff in Hel as [Hn Hc].
  apply negb_true_iff in Hn. apply Z.leb_le in Hc.
  exact (conj Hx (conj Hd (conj Hwf (conj Hn (conj Hc (conj eq_refl eq_refl)))))).
Qed.

(** X7: the model of an allele is fitted on the allele's own arrays, for
    the number of epochs of the command line; when the allele is in the
    imputed-dataset mapping, the three pre-training arguments are the arrays
    of its imputed dataset. *)
Theorem fit_gets_raw_and_imputed_data
    args dict imputed allele_name d fs m a :
  dict !! allele_name = Some d ->
  In (Fitted m a) (loop_body args dict imputed allele_name fs).2 ->
  fit_X a = X_index d /\ fit_Y a = Y d /\ fit_sample_weights a = weights d
  /\ fit_n_training_epochs a = training_epochs args
  /\ (forall imputed_data,
         imputed !! allele_name = Some imputed_data ->
         fit_X_pretrain a = Some (X_index imputed_data)
         /\ fit_Y_pretrain a = Some (Y imputed_data)
         /\ fit_sample_weights_pretrain a = Some (weights imputed_data)).
Proof.
  intros H Hin.
  destruct (loop_body_fit_args _ _ _ _ _ _ _ Hin) as (d0 & H0 & ->).
  assert (d0 = d) by congruence. subst d0.
  unfold fit_args_of. cbn. repeat split; try reflexivity.
  all: now rewrite H1.
Qed.

(** X8: the model object is constructed before the loop looks at the output
    directory and at the sample count: for an allele of the dataset with
    arrays of equal lengths and a name that is not purely numeric,
    [from_hyperparameters] is called, with peptide length 9 and one hidden
    layer, also when the allele is then skipped. *)
Theorem model_is_constructed_before_the_skips
    args dict imputed allele_name d fs :
  dict !! allele_name = Some d -> well_formed d ->
  PyStr.isdigit (normalize_allele_name allele_name) = false ->
  exists h,
    In (Constructed h) (loop_body args dict imputed allele_name fs).2
    /\ hp_name _ h = normalize_allele_name allele_name
    /\ hp_peptide_length _ h = 9
    /\ hp_layer_sizes _ h = [hidden_layer_size args]
    /\ ((materialized args fs allele_name /\ overwrite args = false
         \/ sample_count d < min_samples_per_allele args) ->
        none_of is_fit (loop_body args dict imputed allele_name fs).2).
Proof.
  intros H Hd Hn. exists (hyperparameters_of args allele_name).
  destruct (loop_body_cases args dict imputed allele_name fs)
    as [H0|d0 H0 Hd0|d0 H0 Hd0 Hn0|d0 H0 Hd0 Hn0 Hm Ho
       |d0 H0 Hd0 Hn0 Hm Hlt|d0 H0 Hd0 Hn0 Hm Hge]; try congruence.
  - cbn. repeat split; auto.
  - cbn. repeat split; auto.
  - cbn [snd]. split; [cbn; auto|]. repeat split.
    assert (d0 = d) by congruence. subst d0.
    intros [[Hmat Ho]|Hlt]; [contradiction Hm; now split | lia].
Qed.

(** *** Calls of [fit] in a trace *)

Lemma fits_app t1 t2 : fits (t1 ++ t2)%list = (fits t1 ++ fits t2)%list.
Proof. apply List.filter_app. Qed.

Lemma fits_removals args fs allele_name :
  fits (removals args fs allele_name) = [].
Proof. unfold removals. now do 2 case_bool_decide. Qed.

Lemma fits_trained args imputed allele_name d fs :
  fits (preamble args allele_name d ++ removals args fs allele_name
        ++ fit_and_persist args imputed allele_name d)%list
  = [Fitted (from_hyperparameters (hyperparameters_of args allele_name))
       (fit_args_of args imputed allele_name d)].
Proof. now rewrite !fits_app, fits_removals. Qed.

(** *** Two names of the list with the same normalized name *)

(** X9: two alleles with the same normalized name share their artifact
    files.  When both can be trained, without overwrite the first one of the
    list is fitted and persisted and the second one is skipped as already
    existing; with overwrite both are fitted and the files hold the model of
    the second one. *)
Theorem same_normalized_name_shares_files
    args dict imputed name1 name2 d1 d2 fs :
  normalize_allele_name name1 = normalize_allele_name name2 ->
  dict !! name1 = Some d1 -> dict !! name2 = Some d2 ->
  well_formed d1 -> well_formed d2 ->
  PyStr.isdigit (normalize_allele_name name1) = false ->
  min_samples_per_allele args <= sample_count d1 ->
  min_samples_per_allele args <= sample_count d2 ->
  let fit1 := Fitted (from_hyperparameters (hyperparameters_of args name1))
                (fit_args_of args imputed name1 d1) in
  let fit2 := Fitted (from_hyperparameters (hyperparameters_of args name2))
                (fit_args_of args imputed name2 d2) in
  json_path_of args name1 = json_path_of args name2
  /\ hdf_path_of args name1 = hdf_path_of args name2
  /\ (overwrite args = false -> ~ materialized args fs name1 ->
      exists fs' t,
        training_loop args dict imputed [name1; name2] fs = (Ok tt, fs', t)
        /\ fits t = [fit1]
        /\ fs' !! json_path_of args name1
           = Some (model_json (fitted_model args imputed name1 d1))
        /\ fs' !! hdf_path_of args name1
           = Some (model_weights (fitted_model args imputed name1 d1)))
  /\ (overwrite args = true ->
      exists fs' t,
        training_loop args dict imputed [name1; name2] fs = (Ok tt, fs', t)
        /\ fits t = [fit1; fit2]
        /\ fs' !! json_path_of args name1
           = Some (model_json (fitted_model args imputed name2 d2))
        /\ fs' !! hdf_path_of args name1
           = Some (model_weights (fitted_model args imputed name2 d2))).
Proof.
  intros Hsame H1 H2 Hd1 Hd2 Hn1 Hc1 Hc2 fit1 fit2.
  assert (Hn2 : PyStr.isdigit (normalize_allele_name name2) = false)
    by now rewrite <- Hsame.
  assert (Hj : json_path_of args name1 = json_path_of args name2)
    by (unfold json_path_of; now rewrite Hsame).
  assert (Hh : hdf_path_of args name1 = hdf_path_of args name2)
    by (unfold hdf_path_of; now rewrite Hsame).
  pose proof (json_hdf_distinct args name1) as Hjh.
  split; [exact Hj|split; [exact Hh|split]].
  - intros Ho Hm.
    assert (Hm1 : ~ (materialized args fs name1 /\ overwrite args = false))
      by (intros [? _]; contradiction).
    eexists _, _. unfold training_loop. rewrite for_each_cons.
    rewrite (loop_body_trained _ _ _ _ d1) by assumption.
    cbv beta iota zeta. rewrite for_each_cons.
    rewrite (loop_body_existing _ _ _ _ d2); try assumption.
    2:{ split; unfold file_exists; rewrite <- ?Hj, <- ?Hh.
        - rewrite lookup_insert_ne by (intros E; now apply Hjh).
          rewrite lookup_insert_eq. eauto.
        - rewrite lookup_insert_eq. eauto. }
    cbn [for_each ret]. split; [reflexivity|]. split; [|split].
    + rewrite fits_app. fold (fit_and_persist args imputed name1 d1).
      rewrite fits_trained. reflexivity.
    + rewrite lookup_insert_ne by (intros E; now apply Hjh).
      apply lookup_insert_eq.
    + apply lookup_insert_eq.
  - intros Ho.
    assert (Hm : forall fs0 name,
               ~ (materialized args fs0 name /\ overwrite args = false))
      by (intros fs0 name [_ ?]; congruence).
    eexists _, _. unfold training_loop. rewrite for_each_cons.
    rewrite (loop_body_trained _ _ _ _ d1) by (try apply Hm; assumption).
    cbv beta iota zeta. rewrite for_each_cons.
    rewrite (loop_body_trained _ _ _ _ d2) by (try apply Hm; assumption).
    cbv beta iota zeta. cbn [for_each ret]. split; [reflexivity|]. split; [|split].
    + rewrite !fits_app, !fits_removals. reflexivity.
    + rewrite Hj.
      rewrite lookup_insert_ne
        by (intros E; apply (json_hdf_distinct args name2); now symmetry).
      apply lookup_insert_eq.
    + rewrite Hh. apply lookup_insert_eq.
Qed.

(** *** Runs with overwrite *)

Lemma loop_body_overwrite args dict imputed allele_name fs1 fs2 :
  overwrite args = true ->
  (loop_body args dict imputed allele_name fs1).1.1
  = (loop_body args dict imputed allele_name fs2).1.1
  /\ fits (loop_body args dict imputed allele_name fs1).2
     = fits (loop_body args dict imputed allele_name fs2).2.
Proof.
  intros Ho.
  assert (Hm : forall fs0,
             ~ (materialized args fs0 allele_name /\ overwrite args = false))
    by (intros fs0 [_ ?]; congruence).
  destruct (dict !! allele_name) as [d|] eqn:H.
  2: { rewrite !loop_body_missing by exact H. now split. }
  destruct (decide (List.length (X_index d) = List.length (Y d)
                    /\ List.length (weights d) = List.length (Y d))) as [Hd|Hd].
  2: { rewrite !(loop_body_ragged _ _ _ _ d) by assumption. now split. }
  destruct (PyStr.isdigit (normalize_allele_name allele_name)) eqn:Hn.
  { rewrite !(loop_body_numeric _ _ _ _ d) by assumption. now split. }
  destruct (Z.lt_ge_cases (sample_count d) (min_samples_per_allele args))
    as [Hc|Hc].
  - rewrite !(loop_body_too_few _ _ _ _ d) by (try apply Hm; assumption).
    now split.
  - rewrite !(loop_body_trained _ _ _ _ d) by (try apply Hm; assumption).
    cbv zeta. cbn [fst snd]. split; [reflexivity|].
    fold (fit_and_persist args imputed allele_name d).
    now rewrite !fits_trained.
Qed.

(** X10: with overwrite set, what is in the output directory has no
    influence on the run: from any two directories the loop ends in the same
    way and calls [fit] for the same alleles with the same arguments. *)
Theorem overwrite_run_ignores_the_directory
    args dict imputed alleles fs1 fs2 :
  overwrite args = true ->
  (training_loop args dict imputed alleles fs1).1.1
  = (training_loop args dict imputed alleles fs2).1.1
  /\ fits (training_loop args dict imputed alleles fs1).2
     = fits (training_loop args dict imputed alleles fs2).2.
Proof.
  intros Ho. unfold training_loop. revert fs1 fs2.
  induction alleles as [|a l IH]; intros fs1 fs2; [now split|].
  rewrite !for_each_cons.
  destruct (loop_body_overwrite args dict imputed a fs1 fs2 Ho) as [Hr Hf].
  destruct (loop_body args dict imputed a fs1) as [[r1 fs1'] t1].
  destruct (loop_body args dict imputed a fs2) as [[r2 fs2'] t2].
  cbn [fst snd] in Hr, Hf. subst r2. destruct r1 as [[]|e].
  - destruct (IH fs1' fs2') as [Hr' Hf'].
    destruct (for_each _ l fs1') as [[r1' fs1''] t1'].
    destruct (for_each _ l fs2') as [[r2' fs2''] t2'].
    cbn [fst snd] in Hr', Hf' |- *. split; [exact Hr'|].
    now rewrite !fits_app, Hf, Hf'.
  - cbn [fst snd]. now split.
Qed.

(** *** The order of the alleles *)

Lemma json_hdf_distinct_any args name1 name2 :
  json_path_of args name1 <> hdf_path_of args name2.
Proof.
  unfold json_path_of, hdf_path_of. intros E.
  apply (f_equal PyStr.last_char) in E.
  rewrite !last_char_join in E by (apply app_nonempty; discriminate).
  rewrite !last_char_app in E by discriminate.
  discriminate.
Qed.

(** The output directory after an iteration that does not raise. *)
Lemma loop_body_directory args dict imputed allele_name d fs :
  dict !! allele_name = Some d -> well_formed d ->
  (loop_body args dict imputed allele_name fs).1
  = (Ok tt,
     if trains args dict fs allele_name
     then <[hdf_path_of args allele_name :=
              model_weights (fitted_model args imputed allele_name d)]>
            (<[json_path_of args allele_name :=
                 model_json (fitted_model args imputed allele_name d)]> fs)
     else fs).
Proof.
  intros H Hd. unfold trains, eligible. rewrite H, bool_decide_and.
  destruct (loop_body_cases args dict imputed allele_name fs)
    as [H0|d0 H0 Hd0|d0 H0 Hd0 Hn|d0 H0 Hd0 Hn Hm Ho
       |d0 H0 Hd0 Hn Hm Hlt|d0 H0 Hd0 Hn Hm Hge]; try congruence;
    assert (d0 = d) by congruence; subst d0; cbn [fst]; rewrite Hn.
  - reflexivity.
  - rewrite (guard_existing _ _ _ Hm Ho). now rewrite andb_false_r.
  - apply Z.leb_gt in Hlt. now rewrite Hlt.
  - apply Z.leb_le in Hge.
    now rewrite Hge, (guard_not_existing _ _ _ Hm).
Qed.

Lemma directory_after_cons args dict imputed allele_name alleles fs :
  (exists d, dict !! allele_name = Some d /\ well_formed d) ->
  directory_after args dict imputed (allele_name :: alleles) fs
  = directory_after args dict imputed alleles
      (directory_after args dict imputed [allele_name] fs).
Proof.
  intros (d & H & Hd). unfold directory_after, training_loop.
  rewrite !for_each_cons.
  pose proof (loop_body_directory args dict imputed allele_name d fs H Hd) as E.
  destruct (loop_body args dict imputed allele_name fs) as [[r fs1] t1].
  cbn [fst] in E. injection E as -> ->. cbn [for_each ret fst snd].
  now destruct (for_each _ alleles _) as [[r2 fs2] t2].
Qed.

Lemma directory_after_one args dict imputed allele_name d fs :
  dict !! allele_name = Some d -> well_formed d ->
  directory_after args dict imputed [allele_name] fs
  = if trains args dict fs allele_name
    then <[hdf_path_of args allele_name :=
             model_weights (fitted_model args imputed allele_name d)]>
           (<[json_path_of args allele_name :=
                model_json (fitted_model args imputed allele_name d)]> fs)
    else fs.
Proof.
  intros H Hd. unfold directory_after, training_loop.
  rewrite for_each_cons.
  pose proof (loop_body_directory args dict imputed allele_name d fs H Hd) as E.
  destruct (loop_body args dict imputed allele_name fs) as [[r fs1] t1].
  cbn [fst] in E. injection E as -> ->. reflexivity.
Qed.

Lemma trains_frame args dict fs name1 name2 (c1 c2 : string) :
  json_path_of args name1 <> json_path_of args name2 ->
  hdf_path_of args name1 <> hdf_path_of args name2 ->
  trains args dict
    (<[hdf_path_of args name1 := c1]> (<[json_path_of args name1 := c2]> fs))
    name2
  = trains args dict fs name2.
Proof.
  intros Hj Hh. unfold trains.
  rewrite !(lookup_insert_ne _ (hdf_path_of args name1)), 
          !(lookup_insert_ne _ (json_path_of args name1)); auto.
  - apply json_hdf_distinct_any.
  - intros E. now apply (json_hdf_distinct_any args name2 name1).
Qed.

Lemma iterations_commute args dict imputed name1 name2 d1 d2 fs :
  dict !! name1 = Some d1 -> well_formed d1 ->
  dict !! name2 = Some d2 -> well_formed d2 ->
  json_path_of args name1 <> json_path_of args name2 ->
  hdf_path_of args name1 <> hdf_path_of args name2 ->
  directory_after args dict imputed [name2]
    (directory_after args dict imputed [name1] fs)
  = directory_after args dict imputed [name1]
      (directory_after args dict imputed [name2] fs).
Proof.
  intros H1 Hd1 H2 Hd2 Hj Hh.
  rewrite (directory_after_one _ _ _ name1 d1 fs) by assumption.
  rewrite (directory_after_one _ _ _ name2 d2 fs) by assumption.
  rewrite (directory_after_one _ _ _ name2 d2) by assumption.
  rewrite (directory_after_one _ _ _ name1 d1) by assumption.
  destruct (trains args dict fs name1) eqn:E1;
    destruct (trains args dict fs name2) eqn:E2;
    rewrite ?trains_frame, ?E1, ?E2 by (auto; congruence); try reflexivity.
  pose proof (json_hdf_distinct_any args name1 name2) as Hjh12.
  pose proof (json_hdf_distinct_any args name2 name1) as Hjh21.
  rewrite (insert_insert_ne _ (json_path_of args name2)
             (hdf_path_of args name1)) by exact Hjh21.
  rewrite (insert_insert_ne _ (json_path_of args name2)
             (json_path_of args name1)) by (intros E; now apply Hj).
  rewrite (insert_insert_ne _ (hdf_path_of args name2)
             (hdf_path_of args name1)) by (intros E; now apply Hh).
  rewrite (insert_insert_ne _ (hdf_path_of args name2)
             (json_path_of args name1)) by (intros E; now apply Hjh12).
  reflexivity.
Qed.

(** X15: the alleles are independent of each other: when the alleles of a
    list are in the dataset with arrays of equal lengths and no two of them
    share an artifact file, the output directory after the loop is the same
    for every order of the list. *)
Theorem directory_does_not_depend_on_the_order
    args dict imputed alleles alleles' fs :
  Forall (fun allele_name =>
            exists d, dict !! allele_name = Some d /\ well_formed d) alleles ->
  NoDup (map (json_path_of args) alleles) ->
  NoDup (map (hdf_path_of args) alleles) ->
  Permutation alleles alleles' ->
  directory_after args dict imputed alleles fs
  = directory_after args dict imputed alleles' fs.
Proof.
  intros Hok Hj Hh Hperm. revert fs Hok Hj Hh.
  induction Hperm as [|x l l' Hperm IH|x y l|l l' l'' Hp1 IH1 Hp2 IH2];
    intros fs Hok Hj Hh.
  - reflexivity.
  - apply Forall_cons in Hok as [Hx Hok].
    cbn [map] in Hj, Hh. apply NoDup_cons in Hj as [_ Hj].
    apply NoDup_cons in Hh as [_ Hh].
    rewrite (directory_after_cons _ _ _ x l), (directory_after_cons _ _ _ x l')
      by exact Hx.
    now apply IH.
  - apply Forall_cons in Hok as [(dy & Hy & Hdy) Hok].
    apply Forall_cons in Hok as [(dx & Hx & Hdx) Hok].
    cbn [map] in Hj, Hh.
    apply NoDup_cons in Hj as [Hjy _]. apply NoDup_cons in Hh as [Hhy _].
    assert (Hjne : json_path_of args y <> json_path_of args x)
      by (intros E; apply Hjy; rewrite E; now left).
    assert (Hhne : hdf_path_of args y <> hdf_path_of args x)
      by (intros E; apply Hhy; rewrite E; now left).
    rewrite (directory_after_cons _ _ _ y (x :: l)) by eauto.
    rewrite (directory_after_cons _ _ _ x l) by eauto.
    rewrite (directory_after_cons _ _ _ x (y :: l)) by eauto.
    rewrite (directory_after_cons _ _ _ y l) by eauto.
    now rewrite (iterations_commute _ _ _ y x dy dx).
  - rewrite IH1 by assumption. apply IH2.
    + now rewrite <- Hp1.
    + now rewrite <- Hp1.
    + now rewrite <- Hp1.
Qed.

End RunProperties.

(** ** More on the conversion of [--imputation-method] *)

Section ConversionProperties.

Import PyStr.

Lemma lower_char_idem c : lower_char (lower_char c) = lower_char c.
Proof. destruct c as [[] [] [] [] [] [] [] []]; reflexivity. Qed.

Lemma lower_idem s : lower (lower s) = lower s.
Proof.
  induction s as [|c s IH]; simpl; [reflexivity|].
  now rewrite lower_char_idem, IH.
Qed.

Lemma lstrip_lower s : lstrip (lower s) = lower (lstrip s).
Proof.
  induction s as [|c s IH]; simpl; [reflexivity|].
  rewrite isspace_lower_char. now destruct (isspace c).
Qed.

Lemma rstrip_lower s : rstrip (lower s) = lower (rstrip s).
Proof.
  induction s as [|c s IH]; simpl; [reflexivity|].
  rewrite IH, isspace_lower_char.
  destruct (rstrip s); simpl; [now destruct (isspace c) | reflexivity].
Qed.

Lemma strip_lower s : strip (lower s) = lower (strip s).
Proof. unfold strip. now rewrite lstrip_lower, rstrip_lower. Qed.

Lemma rstrip_idem s : rstrip (rstrip s) = rstrip s.
Proof.
  induction s as [|c s IH]; simpl; [reflexivity|].
  destruct (rstrip s) as [|d r] eqn:E.
  - destruct (isspace c) eqn:Ec; simpl; [reflexivity|now rewrite Ec].
  - change (rstrip (String c (String d r))) with
      (match rstrip (String d r) with
       | EmptyString => if isspace c then EmptyString else String c EmptyString
       | r0 => String c r0
       end).
    now rewrite IH.
Qed.

Lemma lstrip_starts_clean s : starts_clean (lstrip s).
Proof.
  induction s as [|c s IH]; simpl; [exact I|].
  destruct (isspace c) eqn:E; [exact IH | exact E].
Qed.

Lemma lstrip_rstrip_clean s : starts_clean s -> lstrip (rstrip s) = rstrip s.
Proof.
  destruct s as [|c s]; simpl; [reflexivity|]. intros Hc.
  destruct (rstrip s); rewrite ?Hc; simpl; now rewrite Hc.
Qed.

Lemma strip_idem s : strip (strip s) = strip s.
Proof.
  unfold strip.
  rewrite (lstrip_rstrip_clean _ (lstrip_starts_clean s)).
  apply rstrip_idem.
Qed.

(** X11: the conversion of the option value is idempotent, so a text and
    its converted form are parsed alike: both are rejected, or both are
    accepted with the same value. *)
Theorem imputation_type_is_idempotent s :
  Cli.imputation_type (Cli.imputation_type s) = Cli.imputation_type s
  /\ Cli.parse_imputation_method (Some (Cli.imputation_type s))
     = Cli.parse_imputation_method (Some s).
Proof.
  assert (E : Cli.imputation_type (Cli.imputation_type s)
              = Cli.imputation_type s).
  { unfold Cli.imputation_type.
    now rewrite strip_lower, lower_idem, strip_idem. }
  split; [exact E|].
  unfold Cli.parse_imputation_method. cbv zeta. now rewrite E.
Qed.

End ConversionProperties.

(** ** Properties of the version lookup *)

Section SetupProperties.

Import Setup.

Lemma string_app_assoc (a b c : string) : (a ++ b) ++ c = a ++ (b ++ c).
Proof.
  induction a as [|x a IH]; [reflexivity|].
  change ((String x a ++ b) ++ c) with (String x ((a ++ b) ++ c)).
  now rewrite IH.
Qed.

Lemma is_quote_not_space c : is_quote c = true -> PyStr.isspace c = false.
Proof.
  destruct c as [[] [] [] [] [] [] [] []]; intros H;
    try reflexivity; discriminate H.
Qed.

Lemma search_eq (line_start : bool) (s : string) :
  search line_start s
  = match (if line_start then match_here s else None) with
    | Some v => Some v
    | None =>
        match s with
        | EmptyString => None
        | String c s' => search (Ascii.eqb c newline) s'
        end
    end.
Proof. destruct s; reflexivity. Qed.

Lemma strip_prefix_line prefix l rest :
  has_newline prefix = false -> strip_prefix prefix l = None ->
  strip_prefix prefix (l ++ String newline rest) = None.
Proof.
  revert l. induction prefix as [|p prefix IH]; intros l Hp Hl;
    [discriminate|].
  cbn [has_newline] in Hp. apply orb_false_iff in Hp as [Hp Hprefix].
  destruct l as [|c l].
  - change (EmptyString ++ String newline rest) with (String newline rest).
    cbn [strip_prefix]. now rewrite Hp.
  - change (String c l ++ String newline rest)
      with (String c (l ++ String newline rest)).
    cbn [strip_prefix] in Hl |- *.
    destruct (Ascii.eqb p c); [now apply IH | reflexivity].
Qed.

Lemma match_here_other_line l rest :
  other_line l -> match_here (l ++ String newline rest) = None.
Proof.
  intros [_ Hl]. unfold match_here.
  now rewrite (strip_prefix_line "__version__" l rest eq_refl Hl).
Qed.

Lemma search_false_line l rest :
  has_newline l = false ->
  search false (l ++ String newline rest) = search true rest.
Proof.
  induction l as [|c l IH]; intros Hl.
  - change (EmptyString ++ String newline rest) with (String newline rest).
    rewrite search_eq. now rewrite Ascii.eqb_refl.
  - cbn [has_newline] in Hl. apply orb_false_iff in Hl as [Hc Hl].
    change (String c l ++ String newline rest)
      with (String c (l ++ String newline rest)).
    rewrite search_eq, Hc. now apply IH.
Qed.

Lemma search_false_no_newline l : has_newline l = false -> search false l = None.
Proof.
  induction l as [|c l IH]; intros Hl; [reflexivity|].
  cbn [has_newline] in Hl. apply orb_false_iff in Hl as [Hc Hl].
  rewrite search_eq, Hc. now apply IH.
Qed.

(** A line that does not begin with [__version__] is passed over. *)
Lemma search_other_line l rest :
  other_line l -> search true (l ++ String newline rest) = search true rest.
Proof.
  intros Hl. rewrite search_eq, (match_here_other_line _ _ Hl).
  destruct Hl as [Hnl _]. destruct l as [|c l].
  - change (EmptyString ++ String newline rest) with (String newline rest).
    cbv beta iota. now rewrite Ascii.eqb_refl.
  - cbn [has_newline] in Hnl. apply orb_false_iff in Hnl as [Hc Hnl].
    change (String c l ++ String newline rest)
      with (String c (l ++ String newline rest)).
    cbv beta iota. rewrite Hc. now apply search_false_line.
Qed.

Lemma search_unlines lines rest :
  Forall other_line lines ->
  search true (unlines lines ++ rest) = search true rest.
Proof.
  induction 1 as [|l lines Hl _ IH]; [reflexivity|].
  cbn [unlines]. rewrite string_app_assoc.
  change (String newline (unlines lines) ++ rest)
    with (String newline (unlines lines ++ rest)).
  now rewrite (search_other_line _ _ Hl).
Qed.

Lemma group_to_quote_app v q rest :
  has_quote v = false -> is_quote q = true ->
  group_to_quote (v ++ String q rest) = Some v.
Proof.
  intros Hv Hq. induction v as [|c v IH].
  - change (EmptyString ++ String q rest) with (String q rest).
    cbn [group_to_quote]. now rewrite Hq.
  - cbn [has_quote] in Hv. apply orb_false_iff in Hv as [Hc Hv].
    change (String c v ++ String q rest) with (String c (v ++ String q rest)).
    cbn [group_to_quote]. now rewrite Hc, (IH Hv).
Qed.

Lemma group_to_quote_no_quote s v :
  group_to_quote s = Some v -> has_quote v = false.
Proof.
  revert v. induction s as [|c s IH]; intros v; cbn [group_to_quote];
    [discriminate|].
  destruct (is_quote c) eqn:Hc.
  - intros E. injection E as <-. reflexivity.
  - destruct (group_to_quote s) as [w|]; [|discriminate].
    intros E. injection E as <-. cbn [has_quote].
    now rewrite Hc, (IH w eq_refl).
Qed.

Lemma match_here_no_quote s v : match_here s = Some v -> has_quote v = false.
Proof.
  unfold match_here.
  destruct (strip_prefix _ s) as [s1|]; [|discriminate].
  destruct (PyStr.lstrip s1) as [|c s2]; [discriminate|].
  destruct (Ascii.eqb_spec c "=") as [->|Hne].
  2:{ destruct c as [[] [] [] [] [] [] [] []]; try discriminate.
      now contradiction Hne. }
  destruct (PyStr.lstrip s2) as [|q s3]; [discriminate|].
  destruct (is_quote q); [apply group_to_quote_no_quote | discriminate].
Qed.

(** X12: the version is read from the first line that begins with
    [__version__]: after any lines that do not begin with it, with any
    whitespace around the equals sign, either quote on each side, and
    whatever follows the closing quote, the lookup gives the text between
    the quotes. *)
Theorem version_is_read_from_the_first_version_line
    lines ws1 ws2 q1 v q2 rest :
  Forall other_line lines ->
  PyStr.all_space ws1 = true -> PyStr.all_space ws2 = true ->
  is_quote q1 = true -> is_quote q2 = true ->
  has_quote v = false ->
  version_of
    (unlines lines
     ++ "__version__" ++ ws1 ++ "=" ++ ws2 ++ String q1 (v ++ String q2 rest))
  = inr v.
Proof.
  intros Hlines Hws1 Hws2 Hq1 Hq2 Hv. unfold version_of.
  rewrite (search_unlines _ _ Hlines), search_eq.
  assert (E : match_here
                ("__version__" ++ ws1 ++ "=" ++ ws2
                 ++ String q1 (v ++ String q2 rest)) = Some v).
  { unfold match_here.
    change (strip_prefix "__version__" ("__version__" ++ ?x)) with (Some x).
    cbv beta iota.
    change ("=" ++ ?x) with (String "=" x).
    rewrite (lstrip_app_space ws1 _ Hws1).
    change (PyStr.lstrip (String "=" ?x)) with (String "="%char x).
    cbv beta iota.
    rewrite (lstrip_app_space ws2 _ Hws2).
    cbn [PyStr.lstrip]. rewrite (is_quote_not_space _ Hq1), Hq1.
    now apply group_to_quote_app. }
  now rewrite E.
Qed.

(** X13: the version the lookup gives never contains a quote, single or
    double. *)
Theorem version_has_no_quote init_py v :
  version_of init_py = inr v -> has_quote v = false.
Proof.
  unfold version_of.
  destruct (search true init_py) as [w|] eqn:E; [|discriminate].
  intros Ev. injection Ev as <-.
  revert E. generalize true. induction init_py as [|c s IH]; intros b.
  - rewrite search_eq. destruct b; [|discriminate].
    destruct (match_here EmptyString) eqn:Em; [|discriminate].
    intros E. injection E as <-. now apply match_here_no_quote with EmptyString.
  - rewrite search_eq.
    destruct (if b then match_here (String c s) else None) as [w0|] eqn:Em.
    + intros E. injection E as <-. destruct b; [|discriminate].
      now apply match_here_no_quote with (String c s).
    + apply IH.
Qed.

(** X14: when no line of [__init__.py] begins with [__version__], also when
    the name is there but indented or inside a line, the lookup fails and
    the script ends with [AttributeError]. *)
Theorem no_version_line_is_an_error lines last :
  Forall other_line lines -> other_line last ->
  version_of (unlines lines ++ last) = inl AttributeError.
Proof.
  intros Hlines [Hnl Hlast]. unfold version_of.
  rewrite (search_unlines _ _ Hlines), search_eq.
  assert (E : match_here last = None)
    by (unfold match_here; now rewrite Hlast).
  rewrite E. destruct last as [|c l]; [reflexivity|].
  cbn [has_newline] in Hnl. apply orb_false_iff in Hnl as [Hc Hnl].
  now rewrite Hc, (search_false_no_newline _ Hnl).
Qed.

End SetupProperties.

(** ** Whole runs and version lookups on explicit inputs *)

Section MoreExamples.

Import Demo.

Lemma default_alleles_are_the_sorted_keys_witness :
  alleles (args false 5 []) = []
  /\ NoDup (@alleles_of collaborators (args false 5 []) dataset)
  /\ (In "B*07:02" (@alleles_of collaborators (args false 5 []) dataset)
      <-> is_Some (dataset !! "B*07:02")).
Proof.
  split; [reflexivity|].
  destruct (@default_alleles_are_the_sorted_keys collaborators
              (args false 5 []) dataset eq_refl) as (_ & Hnd & Hin).
  split; [exact Hnd | apply Hin].
Defined.

Lemma default_run_never_raises_key_error_witness :
  alleles (args false 5 []) = []
  /\ (@train collaborators (args false 5 []) dataset ∅).1.1
     <> Raise (KeyError "A*02:01").
Proof.
  split; [reflexivity|].
  apply (@default_run_never_raises_key_error collaborators
           (args false 5 []) dataset ∅ "A*02:01" eq_refl).
Defined.

Lemma well_formed_alleles_complete_witness :
  exists fs' t,
    @training_loop collaborators (args false 5 []) dataset ∅
      ["A*02:01"; "123"] ∅
    = (Ok tt, fs', t).
Proof.
  apply (@well_formed_alleles_complete collaborators (args false 5 [])
           dataset ∅ ["A*02:01"; "123"] ∅).
  intros a [<-|[<-|[]]].
  - exists (samples 10). split; [reflexivity|split; reflexivity].
  - exists (samples 10). split; [reflexivity|split; reflexivity].
Defined.

Lemma files_after_a_run_witness :
  dom (@training_loop collaborators (args false 5 []) dataset ∅
         ["A*02:01"; "B*07:02"; "123"] (json_only "B0702")).1.2
  = dom (json_only "B0702")
    ∪ @artifact_paths collaborators (args false 5 []) dataset
        ["A*02:01"; "B*07:02"; "123"].
Proof.
  eapply (@files_after_a_run collaborators (args false 5 []) dataset ∅).
  vm_compute. reflexivity.
Defined.

Lemma other_paths_are_untouched_witness :
  (@training_loop collaborators (args true 5 []) dataset ∅
     ["A*02:01"; "C*01:02"] (json_only "B0702")).1.2 !! "models/B0702.json"
  = json_only "B0702" !! "models/B0702.json".
Proof.
  apply (@other_paths_are_untouched collaborators (args true 5 []) dataset ∅
           ["A*02:01"; "C*01:02"] (json_only "B0702") "models/B0702.json").
  intros a [<-|[<-|[]]]; split; vm_compute; discriminate.
Defined.

Lemma only_eligible_alleles_are_fitted_witness :
  exists allele_name d,
    In allele_name ["123"; "A*02:01"; "B*07:02"]
    /\ dataset !! allele_name = Some d
    /\ 5 <= @sample_count collaborators d
    /\ @fit_args_of collaborators (args false 5 []) ∅ "A*02:01" (samples 10)
       = @fit_args_of collaborators (args false 5 []) ∅ allele_name d.
Proof.
  destruct (@only_eligible_alleles_are_fitted collaborators (args false 5 [])
              dataset ∅ ["123"; "A*02:01"; "B*07:02"] ∅ "A0201"
              (@fit_args_of collaborators (args false 5 []) ∅ "A*02:01"
                 (samples 10)))
    as (a & d & Ha & Hd & _ & _ & Hc & _ & Hfit).
  - vm_compute. do 3 right. left. reflexivity.
  - exists a, d. repeat split; assumption.
Defined.

(** The demo imputation returns the dataset itself. *)
Lemma fit_gets_raw_and_imputed_data_witness :
  fit_X_pretrain
    (@fit_args_of collaborators (args false 5 []) dataset "A*02:01"
       (samples 10))
  = Some (X_index (samples 10)).
Proof.
  apply (@fit_gets_raw_and_imputed_data collaborators (args false 5 [])
           dataset dataset "A*02:01" (samples 10) ∅ "A0201"
           (@fit_args_of collaborators (args false 5 []) dataset "A*02:01"
              (samples 10))).
  - reflexivity.
  - vm_compute. do 2 right. left. reflexivity.
  - reflexivity.
Defined.

Lemma model_is_constructed_before_the_skips_witness :
  exists h,
    In (Constructed h)
      (@loop_body collaborators (args false 5 []) dataset ∅ "B*07:02" ∅).2
    /\ hp_name _ h = "B0702".
Proof.
  destruct (@model_is_constructed_before_the_skips collaborators
              (args false 5 []) dataset ∅ "B*07:02" (samples 3) ∅)
    as (h & Hin & Hname & _).
  - reflexivity.
  - split; reflexivity.
  - reflexivity.
  - exists h. split; [exact Hin | exact Hname].
Defined.

Lemma same_normalized_name_shares_files_witness :
  @json_path_of collaborators (args true 5 []) "A*02:01"
  = @json_path_of collaborators (args true 5 []) "A-0201"
  /\ exists fs' t,
       @training_loop collaborators (args true 5 []) Twins.dataset ∅
         ["A*02:01"; "A-0201"] ∅
       = (Ok tt, fs', t)
       /\ List.length (fits t) = 2%nat.
Proof.
  destruct (@same_normalized_name_shares_files collaborators (args true 5 [])
              Twins.dataset ∅ "A*02:01" "A-0201" (samples 10) (samples 6) ∅)
    as (Hj & _ & _ & Hover).
  - reflexivity.
  - reflexivity.
  - reflexivity.
  - split; reflexivity.
  - split; reflexivity.
  - reflexivity.
  - vm_compute. discriminate.
  - vm_compute. discriminate.
  - split; [exact Hj|].
    destruct (Hover eq_refl) as (fs' & t & E & Hfits & _).
    exists fs', t. split; [exact E|]. now rewrite Hfits.
Defined.

Lemma overwrite_run_ignores_the_directory_witness :
  fits (@training_loop collaborators (args true 5 []) dataset ∅
          ["A*02:01"; "B*07:02"] ∅).2
  = fits (@training_loop collaborators (args true 5 []) dataset ∅
            ["A*02:01"; "B*07:02"] (both_files "A0201")).2.
Proof.
  apply (@overwrite_run_ignores_the_directory collaborators (args true 5 [])
           dataset ∅ ["A*02:01"; "B*07:02"] ∅ (both_files "A0201") eq_refl).
Defined.

Lemma version_is_read_from_the_first_version_line_witness :
  Setup.version_of
    (Setup.unlines ["# a comment"; "  __version__ = 0"]
     ++ "__version__" ++ " " ++ "=" ++ " "
     ++ String "'" ("0.2.0" ++ String "'" (String Setup.newline "x = 1")))
  = inr "0.2.0".
Proof.
  apply (version_is_read_from_the_first_version_line
           ["# a comment"; "  __version__ = 0"] " " " " "'" "0.2.0" "'"
           (String Setup.newline "x = 1")).
  - repeat constructor.
  - reflexivity.
  - reflexivity.
  - reflexivity.
  - reflexivity.
  - reflexivity.
Defined.

Lemma version_has_no_quote_witness :
  Setup.has_quote "0.2.0" = false.
Proof.
  apply (version_has_no_quote ("__version__ = '0.2.0'") "0.2.0").
  reflexivity.
Defined.

Lemma no_version_line_is_an_error_witness :
  Setup.version_of
    (Setup.unlines ["import os"; "  __version__ = '1'"]
     ++ "version = '2'")
  = inl Setup.AttributeError.
Proof.
  apply (no_version_line_is_an_error
           ["import os"; "  __version__ = '1'"] "version = '2'").
  - repeat constructor.
  - split; reflexivity.
Defined.

Lemma directory_does_not_depend_on_the_order_witness :
  @directory_after collaborators (args false 5 []) dataset ∅
    ["B*07:02"; "A*02:01"] (json_only "A0201")
  = @directory_after collaborators (args false 5 []) dataset ∅
      ["A*02:01"; "B*07:02"] (json_only "A0201").
Proof.
  apply (@directory_does_not_depend_on_the_order collaborators
           (args false 5 []) dataset ∅
           ["B*07:02"; "A*02:01"] ["A*02:01"; "B*07:02"]).
  - repeat constructor.
    + exists (samples 3). split; [reflexivity|split; reflexivity].
    + exists (samples 10). split; [reflexivity|split; reflexivity].
  - apply (bool_decide_unpack _). vm_compute. exact I.
  - apply (bool_decide_unpack _). vm_compute. exact I.
  - apply perm_swap.
Defined.

End MoreExamples.
